(** * ccb: booking of gym classes -- a shallow embedding of [ccb/activities.py]
    and [ccb/main.py], and the properties of its value model and booking pass.

    Conventions of the embedding.
    - A Python [str] is a [string] (the bytes of its UTF-8 encoding); [int] is [Z].
    - A function that can raise returns a [Res]; a method that also logs, warns,
      drives the browser or mutates the configuration object runs in the monad
      [M], a state-and-exception monad over the state the method touches.
    - The browser is an oracle [World] that says which driver calls raise; every
      driver call, log record and warning is appended to a [Trace].
    - Messages of built-in exceptions are abbreviated; messages produced by the
      program's own code are kept verbatim.
    - The built-ins are those of CPython 3.11, with the characters of
      Unicode 14.0. *)

From Stdlib Require Import String Ascii ZArith List Bool Lia.
Import ListNotations.
Local Open Scope string_scope.
Local Open Scope list_scope.
Local Open Scope Z_scope.

Set Implicit Arguments.

(** ** Exceptions and results *)

Inductive Exn : Type :=
| ValueError (msg : string)
| KeyError (key : string)
| ClassError (class_ : string) (message : string)   (* main.py, subclass of KeyError *)
| NoHoursError (message : string)                   (* main.py, subclass of ValueError *)
| AttributeError (msg : string)
| IndexError (msg : string)
| TypeError (msg : string)
| OverflowError (msg : string)
| NoSuchElementException
| WebDriverException.

Inductive Res (A : Type) : Type :=
| Ok (a : A)
| Raise (e : Exn).
Arguments Raise {A} e.

Definition res_bind {A B} (r : Res A) (k : A -> Res B) : Res B :=
  match r with
  | Ok a => k a
  | Raise e => Raise e
  end.

Declare Scope res_scope.
Delimit Scope res_scope with res.
Notation "x <- r ;; k" := (res_bind r (fun x => k))
  (at level 61, r at next level, right associativity) : res_scope.

(** ** Python built-ins used by the program *)

Module Py.

(** The value of a byte. *)
Definition byte (c : ascii) : Z := Z.of_nat (nat_of_ascii c).

(** The blanks [int] skips at both ends of an ASCII text: tab, line feed,
    vertical tab, form feed, carriage return and space. *)
Definition is_space (c : ascii) : bool :=
  let n := nat_of_ascii c in
  (((9 <=? n) && (n <=? 13)) || (n =? 32))%nat.

(** A continuation byte of UTF-8: one that does not start a character. *)
Definition is_continuation (c : ascii) : bool := (128 <=? byte c) && (byte c <? 192).

(** The code points of a text. [need] counts the continuation bytes still
    expected and [acc] holds the bits read so far; [-1] stands for a byte
    that fits no character (the encoding of a [str] has none). *)
Fixpoint code_points_go (need : nat) (acc : Z) (s : string) : list Z :=
  match s with
  | EmptyString =>
      match need with
      | O => []
      | S _ => [-1]
      end
  | String c s' =>
      let b := byte c in
      match need with
      | S k =>
          if is_continuation c
          then match k with
               | O => (64 * acc + (b - 128)) :: code_points_go 0 0 s'
               | S _ => code_points_go k (64 * acc + (b - 128)) s'
               end
          else -1 :: code_points_go 0 0 s'
      | O =>
          if b <? 128 then b :: code_points_go 0 0 s'
          else if b <? 192 then -1 :: code_points_go 0 0 s'
          else if b <? 224 then code_points_go 1 (b - 192) s'
          else if b <? 240 then code_points_go 2 (b - 224) s'
          else if b <? 248 then code_points_go 3 (b - 240) s'
          else -1 :: code_points_go 0 0 s'
      end
  end.

Definition code_points (s : string) : list Z := code_points_go 0 0 s.

(** The blanks beyond ASCII ([str.isspace], Unicode 14.0). *)
Definition unicode_space (cp : Z) : bool :=
  (cp =? 0x85) || (cp =? 0xA0) || (cp =? 0x1680)
  || ((0x2000 <=? cp) && (cp <=? 0x200A))
  || (cp =? 0x2028) || (cp =? 0x2029) || (cp =? 0x202F) || (cp =? 0x205F)
  || (cp =? 0x3000).

(** The code point of the digit zero of every decimal script beyond ASCII
    (Unicode 14.0); the digits one to nine follow it. *)
Definition decimal_zeros : list Z :=
  [0x660; 0x6F0; 0x7C0; 0x966; 0x9E6; 0xA66; 0xAE6; 0xB66; 0xBE6; 0xC66;
   0xCE6; 0xD66; 0xDE6; 0xE50; 0xED0; 0xF20; 0x1040; 0x1090; 0x17E0;
   0x1810; 0x1946; 0x19D0; 0x1A80; 0x1A90; 0x1B50; 0x1BB0; 0x1C40;
   0x1C50; 0xA620; 0xA8D0; 0xA900; 0xA9D0; 0xA9F0; 0xAA50; 0xABF0;
   0xFF10; 0x104A0; 0x10D30; 0x11066; 0x110F0; 0x11136; 0x111D0;
   0x112F0; 0x11450; 0x114D0; 0x11650; 0x116C0; 0x11730; 0x118E0;
   0x11950; 0x11C50; 0x11D50; 0x11DA0; 0x16A60; 0x16AC0; 0x16B50;
   0x1D7CE; 0x1D7D8; 0x1D7E2; 0x1D7EC; 0x1D7F6; 0x1E140; 0x1E2F0;
   0x1E950; 0x1FBF0].

Fixpoint decimal_among (zeros : list Z) (cp : Z) : option Z :=
  match zeros with
  | [] => None
  | z :: zeros' =>
      if (z <=? cp) && (cp <=? z + 9) then Some (cp - z)
      else decimal_among zeros' cp
  end.

(** What [int] makes of a character before it reads the text: a character
    below 127 is kept, a blank beyond becomes a space, a decimal digit
    becomes the ASCII digit of its value, anything else a question mark. *)
Definition to_ascii (cp : Z) : ascii :=
  if (0 <=? cp) && (cp <? 127) then ascii_of_nat (Z.to_nat cp)
  else if unicode_space cp then " "%char
  else match decimal_among decimal_zeros cp with
       | Some d => ascii_of_nat (Z.to_nat (48 + d))
       | None => "?"%char
       end.

Definition transform (s : string) : string :=
  string_of_list_ascii (map to_ascii (code_points s)).

Definition is_digit (c : ascii) : bool :=
  let n := nat_of_ascii c in ((48 <=? n) && (n <=? 57))%nat.

Definition digit_val (c : ascii) : Z := Z.of_nat (nat_of_ascii c) - 48.

Fixpoint rev_onto (s acc : string) : string :=
  match s with
  | EmptyString => acc
  | String c s' => rev_onto s' (String c acc)
  end.

Definition rev (s : string) : string := rev_onto s "".

Fixpoint lstrip (s : string) : string :=
  match s with
  | String c s' => if is_space c then lstrip s' else s
  | EmptyString => s
  end.

Definition strip (s : string) : string := rev (lstrip (rev (lstrip s))).

(** Decimal digits with single underscores between digits. *)
Fixpoint digits (acc : Z) (after_digit : bool) (s : string) : option Z :=
  match s with
  | EmptyString => if after_digit then Some acc else None
  | String c s' =>
      if is_digit c then digits (10 * acc + digit_val c) true s'
      else if Ascii.eqb c "_" then
             if after_digit then digits acc false s' else None
           else None
  end.

Fixpoint count_digits (s : string) : Z :=
  match s with
  | EmptyString => 0
  | String c s' => (if is_digit c then 1 else 0) + count_digits s'
  end.

(** The most digits [int] reads (the default of CPython 3.11). *)
Definition max_str_digits : Z := 4300.

(** [int(s)] for a string argument, base 10, as CPython 3.11 computes it:
    [None] stands for ValueError. *)
Definition int (s : string) : option Z :=
  let read (r : string) : option Z :=
    if max_str_digits <? count_digits r then None else digits 0 false r in
  match strip (transform s) with
  | String "+" r => read r
  | String "-" r => option_map Z.opp (read r)
  | t => read t
  end.

(** [s.split(sep)] for a non-empty separator: [skip] counts the characters of
    a separator occurrence still to be passed over, [cur] holds the current
    piece in reverse. *)
Fixpoint split_go (sep : string) (skip : nat) (cur : string) (s : string)
  : list string :=
  match s with
  | EmptyString => [rev cur]
  | String c s' =>
      match skip with
      | S k => split_go sep k cur s'
      | O =>
          if prefix sep s
          then rev cur :: split_go sep (String.length sep - 1) "" s'
          else split_go sep 0 (String c cur) s'
      end
  end.

Definition split (sep s : string) : list string := split_go sep 0 "" s.

(** [sub in s] for strings. *)
Fixpoint contains (sub s : string) : bool :=
  prefix sub s ||
  match s with
  | EmptyString => false
  | String _ s' => contains sub s'
  end.

(** A slice counts characters, and a character is a byte that is not a
    continuation byte with the continuation bytes that follow it. *)
Fixpoint drop_continuations (s : string) : string :=
  match s with
  | EmptyString => ""
  | String c s' => if is_continuation c then drop_continuations s' else s
  end.

(** [s[1:]] *)
Definition drop_first_char (s : string) : string :=
  match s with
  | EmptyString => ""
  | String _ s' => drop_continuations s'
  end.

(** A character starts somewhere in [s]. *)
Fixpoint starts_char (s : string) : bool :=
  match s with
  | EmptyString => false
  | String c s' => negb (is_continuation c) || starts_char s'
  end.

(** [s[:-1]]: a byte is kept when a character starts after it. *)
Fixpoint drop_last_char (s : string) : string :=
  match s with
  | EmptyString => ""
  | String c s' => if starts_char s' then String c (drop_last_char s') else ""
  end.

(** [s[1:-1]] *)
Definition slice_1_m1 (s : string) : string := drop_last_char (drop_first_char s).

(** [x in l] for a list of strings. *)
Fixpoint mem (x : string) (l : list string) : bool :=
  match l with
  | [] => false
  | y :: l' => String.eqb x y || mem x l'
  end.

(** [str(b)] for a bool. *)
Definition str_of_bool (b : bool) : string := if b then "True" else "False".

(** A value that is a bool or [None], and its truth value. *)
Definition truth (v : option bool) : bool :=
  match v with
  | Some b => b
  | None => false
  end.

Definition not_ (v : option bool) : bool := negb (truth v).

(** [a, b = l]: unpacking into two names. *)
Definition unpack2 (l : list string) : Res (string * string) :=
  match l with
  | [a; b] => Ok (a, b)
  | _ :: _ :: _ :: _ => Raise (ValueError "too many values to unpack (expected 2)")
  | _ => Raise (ValueError "not enough values to unpack (expected 2)")
  end.

Definition unpack3 (l : list string) : Res (string * string * string) :=
  match l with
  | [a; b; c] => Ok (a, b, c)
  | _ :: _ :: _ :: _ :: _ => Raise (ValueError "too many values to unpack (expected 3)")
  | _ => Raise (ValueError "not enough values to unpack (expected 3)")
  end.

Definition int_res (s : string) : Res Z :=
  match int s with
  | Some z => Ok z
  | None => Raise (ValueError "invalid literal for int() with base 10")
  end.

End Py.

(** ** activities.py *)

(** *** class Reservation *)
Module Reservation.

Record t : Type := mk { _reserva : string; _places : Z; _total : Z }.

Definition __init__ (reserva : string) : Res t :=
  (pt <- Py.unpack2 (Py.split "/" (Py.slice_1_m1 reserva)) ;;
   let '(places, total) := pt in
   p <- Py.int_res places ;;
   n <- Py.int_res total ;;
   Ok (mk reserva p n))%res.

Definition __str__ (self : t) : string := _reserva self.

Definition places (self : t) : Z := _places self.
Definition total (self : t) : Z := _total self.

Definition is_free (self : t) : bool := places self <? total self.

Definition __repr__ (self : t) : string :=
  ("Reservation" ++ "(" ++ __str__ self ++ ")")%string.

End Reservation.

(** *** class Hour *)
Module Hour.

Record t : Type := mk { _h : string; _hour : Z; _minutes : Z }.

Definition __init__ (h : string) : Res t :=
  (hm <- Py.unpack2 (Py.split ":" h) ;;
   let '(hour, minutes) := hm in
   hr <- Py.int_res hour ;;
   mins <- Py.int_res minutes ;;
   Ok (mk h hr mins))%res.

Definition __str__ (self : t) : string := _h self.

Definition hour (self : t) : Z := _hour self.
Definition minutes (self : t) : Z := _minutes self.

Definition __eq__ (self other : t) : bool :=
  if hour self =? hour other
  then minutes self =? minutes other
  else false.

(** The inner [if] of [__le__] and [__lt__] has no [else]: the method then
    falls off its end and returns [None]. *)
Definition __le__ (self other : t) : option bool :=
  if hour self <=? hour other
  then Some true
  else if hour self =? hour other
       then Some (minutes self <=? minutes other)
       else None.

Definition __lt__ (self other : t) : option bool :=
  if hour self <? hour other
  then Some true
  else if hour self =? hour other
       then Some (minutes self <? minutes other)
       else None.

Definition __ge__ (self other : t) : bool := Py.not_ (__le__ self other).

Definition __gt__ (self other : t) : bool := Py.not_ (__lt__ self other).

Definition __repr__ (self : t) : string :=
  ("Hour" ++ "(" ++ __str__ self ++ ")")%string.

End Hour.

(** *** class Schedule *)
Module Schedule.

Record t : Type := mk { _sch : string; _start : Hour.t; _end : Hour.t }.

Definition __init__ (sch : string) : Res t :=
  (se <- Py.unpack2 (Py.split " - " sch) ;;
   let '(start, end_) := se in
   s <- Hour.__init__ start ;;
   e <- Hour.__init__ end_ ;;
   Ok (mk sch s e))%res.

Definition __str__ (self : t) : string := _sch self.

Definition start (self : t) : Hour.t := _start self.
Definition end_ (self : t) : Hour.t := _end self.

(** [self.start < item < self.end]: a chained comparison is [a < b and b < c],
    and [and] yields its first operand when that is falsy. *)
Definition __contains__ (self : t) (item : Hour.t) : option bool :=
  let r := Hour.__lt__ (start self) item in
  if Py.truth r then Hour.__lt__ item (end_ self) else r.

(** [item in self]: the operator converts the result to a bool. *)
Definition contains (item : Hour.t) (self : t) : bool :=
  Py.truth (__contains__ self item).

Definition __repr__ (self : t) : string :=
  ("Schedule" ++ "(" ++ __str__ self ++ ")")%string.

End Schedule.


(** ** The state-and-exception monad *)

Definition M (S A : Type) : Type := S -> Res A * S.

Definition ret {S A} (a : A) : M S A := fun s => (Ok a, s).

Definition raise {S A} (e : Exn) : M S A := fun s => (Raise e, s).

Definition bind {S A B} (m : M S A) (k : A -> M S B) : M S B :=
  fun s =>
    match m s with
    | (Ok a, s') => k a s'
    | (Raise e, s') => (Raise e, s')
    end.

Definition of_res {S A} (r : Res A) : M S A := fun s => (r, s).

Declare Scope monad_scope.
Delimit Scope monad_scope with monad.
Notation "x <- m ;; k" := (bind m (fun x => k))
  (at level 61, m at next level, right associativity) : monad_scope.
Notation "m ;;; k" := (bind m (fun _ => k))
  (at level 61, right associativity) : monad_scope.

(** ** The browser and the observable trace *)

(** A selenium [WebElement] is an opaque handle. *)
Definition WebElement : Type := nat.

Inductive Event : Type :=
| LogInfo (msg : string)                           (* logging.info(msg) *)
| Warn (msg : string)                              (* warnings.warn(msg) *)
| ElementClick (el : WebElement)                   (* el.click() *)
| ExecuteScript (script : string) (el : WebElement). (* driver.execute_script(script, el) *)

Definition Trace : Type := list Event.

(** One cell [td] of the activities table: its text, the element found by the
    selector [a], and the [class] attribute of the element found by the
    selector [span] (outer [None]: no such element; inner [None]: no such
    attribute). *)
Record Cell : Type := mkCell {
  text : string;
  anchor : option WebElement;
  span_class : option (option string)
}.

(** The browser: the tables of class [table-striped] of the page (each a list
    of rows [tr], each a list of cells [td]), and whether a click or a script
    raises, given everything that happened before. *)
Record World : Type := mkWorld {
  tables : list (list (list Cell));
  click_raises : Trace -> WebElement -> bool;
  script_raises : Trace -> WebElement -> bool
}.

Definition emit (e : Event) : M Trace unit := fun tr => (Ok tt, tr ++ [e]).

Definition logging_info (msg : string) : M Trace unit := emit (LogInfo msg).

(** [warnings.warn] under the default filters: it never raises. *)
Definition warnings_warn (msg : string) : M Trace unit := emit (Warn msg).

Definition element_click (w : World) (el : WebElement) : M Trace unit :=
  fun tr =>
    if click_raises w tr el
    then (Raise WebDriverException, tr ++ [ElementClick el])
    else (Ok tt, tr ++ [ElementClick el]).

Definition execute_script (w : World) (script : string) (el : WebElement)
  : M Trace unit :=
  fun tr =>
    if script_raises w tr el
    then (Raise WebDriverException, tr ++ [ExecuteScript script el])
    else (Ok tt, tr ++ [ExecuteScript script el]).

(** [try: body  except: handler  finally: final] with a bare [except]. *)
Definition try_except_finally {S} (body handler final : M S unit) : M S unit :=
  fun s =>
    match body s with
    | (Ok tt, s1) => final s1
    | (Raise _, s1) =>
        match handler s1 with
        | (Ok tt, s2) => final s2
        | (Raise e, s2) =>
            match final s2 with
            | (Ok tt, s3) => (Raise e, s3)
            | (Raise e', s3) => (Raise e', s3)
            end
        end
    end.

(** *** class ButtonIcon *)
Module ButtonIcon.
Definition PLUS : string := "PLUS".
Definition MINUS : string := "MINUS".
End ButtonIcon.

(** *** class Button

    [__init__] has two branches on the type of [element]: a [str] gives a
    button that is not enabled and has no [element] attribute; a [WebElement]
    gives an enabled button. The two shapes are the two constructors. *)
Module Button.

Inductive t : Type :=
| Disabled (_icon : option string)
| Enabled (_element : WebElement) (_icon : string).

Definition icon_setter (ico : option string) : Res string :=
  match ico with
  | Some ico =>
      Ok (if Py.contains "plus" ico then ButtonIcon.PLUS else ButtonIcon.MINUS)
  | None => Raise (TypeError "argument of type 'NoneType' is not iterable")
  end.

Definition __init__ (element : WebElement + string) (icon : option string)
  : Res t :=
  match element with
  | inr _ => Ok (Disabled icon)
  | inl el => (ico_ <- icon_setter icon ;; Ok (Enabled el ico_))%res
  end.

Definition is_enabled (self : t) : bool :=
  match self with
  | Disabled _ => false
  | Enabled _ _ => true
  end.

Definition click (w : World) (self : t) : M Trace unit :=
  match self with
  | Enabled element _ =>
      try_except_finally
        (element_click w element ;;;
         logging_info "Class booked!")%monad
        (logging_info
           "The button could not be clicked, trying to execute the element." ;;;
         execute_script w "arguments[0].click();" element)%monad
        (logging_info "Could not book the class")
  | Disabled _ => warnings_warn "The Button cannot be clicked."
  end.

(** The property [icon]. *)
Definition icon (self : t) : option string :=
  match self with
  | Disabled ico => ico
  | Enabled _ ico => Some ico
  end.

Definition __repr__ (self : t) : string :=
  let icon := match icon self with
              | Some ico => ico
              | None => ""
              end in
  ("Button" ++ "(" ++ Py.str_of_bool (is_enabled self) ++ " - " ++ icon ++ ")")%string.

End Button.

(** *** class Activities *)
Module Activities.
Definition CROSSFIT : string := "Crossfit".
Definition OPEN_BOX : string := "Open Box".
Definition WEIGHTLIFTING : string := "Halterofília".
Definition CALISTHENICS : string := "Calisteni".
End Activities.

(** *** class Activity and its four subclasses

    The program only instantiates the subclasses, with the three keyword
    arguments given (main.py, [get_activities]); the subclass is the field
    [class_]. *)
Module Activity.

Inductive subclass : Type := OpenBox | Crossfit | Calisthenics | Weightlifting.

Record t : Type := mk {
  class_ : subclass;
  schedule : Schedule.t;
  reservation : Reservation.t;
  button : Button.t
}.

Definition __name__ (c : subclass) : string :=
  match c with
  | OpenBox => "OpenBox"
  | Crossfit => "Crossfit"
  | Calisthenics => "Calisthenics"
  | Weightlifting => "Weightlifting"
  end.

Definition name (self : t) : string :=
  match class_ self with
  | OpenBox => Activities.OPEN_BOX
  | Crossfit => Activities.CROSSFIT
  | Calisthenics => Activities.CALISTHENICS
  | Weightlifting => Activities.WEIGHTLIFTING
  end.

Definition __repr__ (self : t) : string :=
  (__name__ (class_ self) ++ "(" ++ Schedule.__str__ (schedule self) ++ ", "
     ++ Reservation.__str__ (reservation self) ++ ")")%string.

Definition book (w : World) (self : t) : M Trace bool :=
  (if Reservation.is_free (reservation self)
   then Button.click w (button self) ;;;
        logging_info ("Class registered: " ++ __repr__ self)%string ;;;
        ret true
   else logging_info "No space at the moment" ;;;
        ret false)%monad.

End Activity.

(** ** main.py *)

(** [CLASS_MAP]: a dict literal, as its items in insertion order. *)
Definition CLASS_MAP : list (string * string) :=
  [ ("Open Box", Activities.OPEN_BOX);
    ("Crossfit", Activities.CROSSFIT);
    ("Calisthenics", Activities.CALISTHENICS);
    ("Weightlifting", Activities.WEIGHTLIFTING) ].

Definition CLASS_MAP_keys : list string := map fst CLASS_MAP.

(** [CLASS_MAP[key]] *)
Fixpoint dict_get (d : list (string * string)) (key : string) : option string :=
  match d with
  | [] => None
  | (k, v) :: d' => if String.eqb key k then Some v else dict_get d' key
  end.

(** [str(l)] for a list of strings that need no escaping. *)
Definition repr_str_list (l : list string) : string :=
  ("[" ++ String.concat ", " (map (fun s => "'" ++ s ++ "'") l) ++ "]")%string.

(** [ClassError(class_)], with the default [message]. *)
Definition ClassError_ (class_ : string) : Exn :=
  ClassError class_
    ("Class not defined." ++ " Must be one of: " ++ repr_str_list CLASS_MAP_keys
       ++ ".")%string.

Definition NoHoursError_ : Exn :=
  NoHoursError "No hours inserted or incorrect format.".

(** [datetime.date] *)
Module dt.

Record date : Type := mkdate { year : Z; month : Z; day : Z }.

Definition is_leap (y : Z) : bool :=
  ((y mod 4 =? 0) && negb (y mod 100 =? 0)) || (y mod 400 =? 0).

Definition days_in_month (y m : Z) : Z :=
  if m =? 2 then (if is_leap y then 29 else 28)
  else if (m =? 4) || (m =? 6) || (m =? 9) || (m =? 11) then 30
       else 31.

(** An argument of [date] is converted to a C int first. *)
Definition c_int_min : Z := -2147483648.
Definition c_int_max : Z := 2147483647.

Definition c_int (z : Z) : Res Z :=
  if c_int_max <? z then Raise (OverflowError "signed integer is greater than maximum")
  else if z <? c_int_min then Raise (OverflowError "signed integer is less than minimum")
  else Ok z.

Definition date_ (y m d : Z) : Res date :=
  (y <- c_int y ;;
   m <- c_int m ;;
   d <- c_int d ;;
   if (1 <=? y) && (y <=? 9999) && (1 <=? m) && (m <=? 12)
      && (1 <=? d) && (d <=? days_in_month y m)
   then Ok (mkdate y m d)
   else Raise (ValueError "date value out of range"))%res.

Definition eqb (a b : date) : bool :=
  (year a =? year b) && (month a =? month b) && (day a =? day b).

End dt.

(** *** class JsonConfig

    [_data] is the parsed JSON document; a JSON object is kept as the list of
    its items in iteration order (the keys of a dict are distinct). *)
Module JsonConfig.

Record data : Type := mkdata {
  Username : string;
  Password : string;
  days : list (string * list (string * list string))
}.

Record t : Type := mk {
  _data : data;
  _classes : list string;
  _hours : list Hour.t;
  _days : list dt.date
}.

(** The object after [__init__] has read the file. *)
Definition __init__ (d : data) : t := mk d [] [] [].

Definition _days_append (x : dt.date) : M t unit :=
  fun self => (Ok tt, mk (_data self) (_classes self) (_hours self) (_days self ++ [x])).

Definition _hours_append (x : Hour.t) : M t unit :=
  fun self => (Ok tt, mk (_data self) (_classes self) (_hours self ++ [x]) (_days self)).

Definition _classes_append (x : string) : M t unit :=
  fun self => (Ok tt, mk (_data self) (_classes self ++ [x]) (_hours self) (_days self)).

(** [except ValueError] also catches the subclass [NoHoursError]; it does not
    catch the OverflowError of [date]. *)
Definition _parse_day (day : string) : Res dt.date :=
  match (dmy <- Py.unpack3 (Py.split "/" day) ;;
         let '(d, m, y) := dmy in
         y' <- Py.int_res y ;;
         m' <- Py.int_res m ;;
         d' <- Py.int_res d ;;
         dt.date_ y' m' d')%res
  with
  | Ok x => Ok x
  | Raise (ValueError _) | Raise (NoHoursError _) =>
      Raise (ValueError "Bad day format in 'wanted_days'. ")
  | Raise e => Raise e
  end.

(** The three nested loops of [_get_classes], innermost first. *)
Fixpoint _get_classes_classes (wanted : list string) : M t unit :=
  match wanted with
  | [] => ret tt
  | wanted_class :: rest =>
      (if negb (Py.mem wanted_class CLASS_MAP_keys)
       then raise (ClassError_ wanted_class)
       else match dict_get CLASS_MAP wanted_class with
            | Some activity => _classes_append activity
            | None => raise (KeyError wanted_class)
            end) ;;;
      _get_classes_classes rest
  end%monad.

Fixpoint _get_classes_hours (hours : list (string * list string)) : M t unit :=
  match hours with
  | [] => ret tt
  | (hour, wanted) :: rest =>
      (h <- of_res (Hour.__init__ hour) ;;
       _hours_append h ;;;
       _get_classes_classes wanted ;;;
       _get_classes_hours rest)
  end%monad.

Fixpoint _get_classes_days
  (ds : list (string * list (string * list string))) : M t unit :=
  match ds with
  | [] => ret tt
  | (day, hours) :: rest =>
      (d <- of_res (_parse_day day) ;;
       _days_append d ;;;
       _get_classes_hours hours ;;;
       _get_classes_days rest)
  end%monad.

Definition _get_classes : M t unit :=
  fun self => _get_classes_days (days (_data self)) self.

Definition submit_info (self : t) : string * string :=
  (Username (_data self), Password (_data self)).

Definition wanted_classes : M t (list string) :=
  fun self =>
    ((if (Z.of_nat (length (_classes self)) =? 0) then _get_classes else ret tt) ;;;
     (fun self' => (Ok (_classes self'), self')))%monad self.

Definition wanted_hours : M t (list Hour.t) :=
  fun self =>
    ((if (Z.of_nat (length (_hours self)) =? 0) then _get_classes else ret tt) ;;;
     (fun self' =>
        if (Z.of_nat (length (_hours self')) =? 0)
        then (Raise NoHoursError_, self')
        else (Ok (_hours self'), self')))%monad self.

Definition wanted_days : M t (list dt.date) :=
  fun self =>
    ((if (Z.of_nat (length (_days self)) =? 0) then _get_classes else ret tt) ;;;
     (fun self' => (Ok (_days self'), self')))%monad self.

End JsonConfig.

(** *** class CCB *)
Module CCB.

(** What [_parse_table_elem] returns: a Schedule, a str, a Reservation or a
    Button. *)
Inductive Elem : Type :=
| ESchedule (s : Schedule.t)
| EStr (s : string)
| EReservation (r : Reservation.t)
| EButton (b : Button.t).

Definition _parse_table_elem (pos : nat) (cell : Cell) : Res Elem :=
  match pos with
  | 0%nat => (s <- Schedule.__init__ (text cell) ;; Ok (ESchedule s))%res
  | 1%nat => Ok (EStr (text cell))
  | 2%nat => (r <- Reservation.__init__ (text cell) ;; Ok (EReservation r))%res
  | 3%nat =>
      if (0 <? Z.of_nat (String.length (text cell)))
      then (b <- Button.__init__ (inr (text cell)) None ;; Ok (EButton b))%res
      else
        match anchor cell with
        | None => Raise NoSuchElementException
        | Some elem =>
            match span_class cell with
            | None => Raise NoSuchElementException
            | Some icon =>
                (b <- Button.__init__ (inl elem) icon ;; Ok (EButton b))%res
            end
        end
  | _ => Raise (ValueError "This element is not expected")
  end.

(** The keyword arguments built in [get_activities]. *)
Record arguments : Type := mk_arguments {
  arg_schedule : Schedule.t;
  arg_reservation : Reservation.t;
  arg_button : Button.t
}.

Definition instantiate (c : Activity.subclass) (a : arguments) : Activity.t :=
  Activity.mk c (arg_schedule a) (arg_reservation a) (arg_button a).

(** The result is [None] for a name that is none of the four. The warning
    formats [activity], which is [None] at that point. *)
Definition _get_activity (a : arguments) (name : string)
  : M Trace (option Activity.t) :=
  if String.eqb name Activities.OPEN_BOX
  then ret (Some (instantiate Activity.OpenBox a))
  else if String.eqb name Activities.CROSSFIT
  then ret (Some (instantiate Activity.Crossfit a))
  else if String.eqb name Activities.CALISTHENICS
  then ret (Some (instantiate Activity.Calisthenics a))
  else if String.eqb name Activities.WEIGHTLIFTING
  then ret (Some (instantiate Activity.Weightlifting a))
  else (warnings_warn ("Activity unregistered: " ++ "None" ++ ".")%string ;;;
        ret None)%monad.

(** [for j, cell in enumerate(cells)]: parse and append. *)
Fixpoint parse_cells (j : nat) (cells : list Cell) (row_elements : list Elem)
  : Res (list Elem) :=
  match cells with
  | [] => Ok row_elements
  | cell :: rest =>
      (elem <- _parse_table_elem j cell ;;
       parse_cells (S j) rest (row_elements ++ [elem]))%res
  end.

Definition index_error : Exn := IndexError "list index out of range".

(** [name = row_elements[1]] and the dict of [row_elements[0]],
    [row_elements[2]], [row_elements[3]]. An element of another kind than
    its position gives cannot occur ([_parse_table_elem] fixes the kind by
    position); the program would pass it on unchecked. *)
Definition name_and_arguments (row_elements : list Elem)
  : Res (string * arguments) :=
  match row_elements with
  | e0 :: e1 :: e2 :: e3 :: _ =>
      match e0, e1, e2, e3 with
      | ESchedule s, EStr name, EReservation r, EButton b =>
          Ok (name, mk_arguments s r b)
      | _, _, _, _ => Raise (TypeError "unexpected element")
      end
  | _ => Raise index_error
  end.

(** The body of the loop over the rows of the table. *)
Definition row_body (i : nat) (cells : list Cell)
  (activities : list (option Activity.t)) : M Trace (list (option Activity.t)) :=
  if (1 <? Z.of_nat i)
  then
    if (4 <? Z.of_nat (length cells))
    then ret activities
    else
      (row_elements <- of_res (parse_cells 0 cells []) ;;
       na <- of_res (name_and_arguments row_elements) ;;
       activity <- _get_activity (snd na) (fst na) ;;
       ret (activities ++ [activity]))%monad
  else ret activities.

Fixpoint rows_loop (i : nat) (rows : list (list Cell))
  (activities : list (option Activity.t)) : M Trace (list (option Activity.t)) :=
  match rows with
  | [] => ret activities
  | row :: rest =>
      (activities' <- row_body i row activities ;;
       rows_loop (S i) rest activities')%monad
  end.

Definition get_activities (w : World) : M Trace (list (option Activity.t)) :=
  match nth_error (tables w) 1 with
  | None => raise index_error
  | Some table => rows_loop 0 table []
  end.

End CCB.

(** *** The booking pass of [__main__] (lines 434 to 444) *)

(** The two conditions that guard [activity.book()]. *)
Definition wanted (wanted_activities : list string) (wanted_hour : Hour.t)
  (activity : Activity.t) : bool :=
  if Py.mem (Activity.name activity) wanted_activities
  then Schedule.contains wanted_hour (Activity.schedule activity)
  else false.

(** What the loop does for an activity that passes the guard. *)
Definition attempt (w : World) (activity : Activity.t) : M Trace unit :=
  (logging_info ("Activity: " ++ Activity.__repr__ activity)%string ;;;
   is_booked <- Activity.book w activity ;;
   logging_info ("Are we registered? " ++ Py.str_of_bool is_booked ++ ".")%string)%monad.

Definition none_has_no_name : Exn :=
  AttributeError "'NoneType' object has no attribute 'name'".

Definition loop_body (w : World) (wanted_activities : list string)
  (wanted_hour : Hour.t) (activity : option Activity.t) : M Trace unit :=
  match activity with
  | None => raise none_has_no_name
  | Some activity =>
      if Py.mem (Activity.name activity) wanted_activities
      then if Schedule.contains wanted_hour (Activity.schedule activity)
           then attempt w activity
           else ret tt
      else ret tt
  end.

Fixpoint booking_loop (w : World) (wanted_activities : list string)
  (wanted_hour : Hour.t) (activities : list (option Activity.t)) : M Trace unit :=
  match activities with
  | [] => ret tt
  | activity :: rest =>
      (loop_body w wanted_activities wanted_hour activity ;;;
       booking_loop w wanted_activities wanted_hour rest)%monad
  end.

(** [wanted_hour = act.Hour('15:00')] *)
Definition wanted_hour_literal : string := "15:00".

Definition lift_config {A} (m : M JsonConfig.t A) : M (JsonConfig.t * Trace) A :=
  fun s => let (r, c) := m (fst s) in (r, (c, snd s)).

Definition lift_trace {A} (m : M Trace A) : M (JsonConfig.t * Trace) A :=
  fun s => let (r, tr) := m (snd s) in (r, (fst s, tr)).

(** Lines 434 to 444: the activities of the displayed day are scraped, the
    configuration is queried, and the activities are gone through. An
    exception that leaves this function ends the program. *)
Definition main_booking (w : World) : M (JsonConfig.t * Trace) unit :=
  (activities <- lift_trace (CCB.get_activities w) ;;
   wanted_activities <- lift_config JsonConfig.wanted_classes ;;
   wanted_hours <- lift_config JsonConfig.wanted_hours ;;
   wanted_hour <- of_res (Hour.__init__ wanted_hour_literal) ;;
   lift_trace (booking_loop w wanted_activities wanted_hour activities))%monad.

(** ** Notions of the specification *)

(** The order of the specification on hours: by hour, then by minute. *)
Definition earlier (a b : Hour.t) : Prop :=
  Hour.hour a < Hour.hour b
  \/ (Hour.hour a = Hour.hour b /\ Hour.minutes a < Hour.minutes b).

Definition same_time (a b : Hour.t) : Prop :=
  Hour.hour a = Hour.hour b /\ Hour.minutes a = Hour.minutes b.

Definition earlierb (a b : Hour.t) : bool :=
  (Hour.hour a <? Hour.hour b)
  || ((Hour.hour a =? Hour.hour b) && (Hour.minutes a <? Hour.minutes b)).

(** The invariant the specification gives a time of day. *)
Definition Hour_in_range (v : Hour.t) : Prop :=
  0 <= Hour.hour v <= 23 /\ 0 <= Hour.minutes v <= 59.

(** A token without the character [c]. *)
Fixpoint free_of (c : ascii) (s : string) : Prop :=
  match s with
  | EmptyString => True
  | String c' s' => c' <> c /\ free_of c s'
  end.

(** The calls made to the browser, among the events of a trace. *)
Definition is_driver_call (e : Event) : bool :=
  match e with
  | ElementClick _ | ExecuteScript _ _ => true
  | LogInfo _ | Warn _ => false
  end.

Definition driver_calls (tr : Trace) : Trace := filter is_driver_call tr.

(** The record the booking pass logs before it calls [book], and the one it
    logs after [book] has returned. *)
Definition attempt_log (a : Activity.t) : Event :=
  LogInfo ("Activity: " ++ Activity.__repr__ a)%string.

Definition is_attempt_log (e : Event) : bool :=
  match e with
  | LogInfo msg => prefix "Activity: " msg
  | _ => false
  end.

Definition is_outcome_log (e : Event) : bool :=
  match e with
  | LogInfo msg => prefix "Are we registered? " msg
  | _ => false
  end.

(** The match predicate as the specification words it: class among the
    wanted classes, target hour strictly inside the window, day among the
    wanted days. *)
Definition BookingFilter_match (wantedClassTags : list string)
  (wantedDays : list dt.date) (record : Activity.t) (day : dt.date)
  (targetHour : Hour.t) : bool :=
  Py.mem (Activity.name record) wantedClassTags
  && (earlierb (Schedule.start (Activity.schedule record)) targetHour
      && earlierb targetHour (Schedule.end_ (Activity.schedule record)))
  && existsb (dt.eqb day) wantedDays.

(** The vocabulary the specification gives the configuration. *)
Definition spec_vocabulary : list string :=
  ["Open Box"; "Crossfit"; "Halterofília"; "Calisteni"].

(** The class tokens of a configuration document, in document order, and the
    test [_get_classes] applies to each. *)
Definition tokens_of_hours (hours : list (string * list string)) : list string :=
  flat_map snd hours.

Definition tokens_of_days (ds : list (string * list (string * list string)))
  : list string :=
  flat_map (fun dh => tokens_of_hours (snd dh)) ds.

Definition unknown_class (tok : string) : bool := negb (Py.mem tok CLASS_MAP_keys).

(** The page name a configuration name stands for. *)
Definition page_name (tok : string) : string :=
  match dict_get CLASS_MAP tok with
  | Some v => v
  | None => tok
  end.

(** The day keys and the hour keys of a document are well formed. *)
Definition hours_parse (hours : list (string * list string)) : Prop :=
  Forall (fun hc => exists h, Hour.__init__ (fst hc) = Ok h) hours.

Definition keys_parse (ds : list (string * list (string * list string))) : Prop :=
  Forall (fun dh => (exists d, JsonConfig._parse_day (fst dh) = Ok d)
                    /\ hours_parse (snd dh)) ds.

(** What a run of the loops over the tokens [toks] must give, from an object
    whose [_classes] is [classes0]: ClassError for the first unknown token,
    else every token translated and appended to [_classes]. *)
Definition classes_outcome (toks : list string) (classes0 : list string)
  (r : Res unit * JsonConfig.t) : Prop :=
  match find unknown_class toks with
  | Some tok => fst r = Raise (ClassError_ tok)
  | None =>
      fst r = Ok tt
      /\ JsonConfig._classes (snd r) = classes0 ++ map page_name toks
  end.

(** The script [Button.click] falls back on. *)
Definition click_script : string := "arguments[0].click();".

(** The record [Button.click] logs in its [finally] clause. *)
Definition could_not_book : Event := LogInfo "Could not book the class".

(** The record [Button.click] logs when the click of the element raised. *)
Definition could_not_click : Event :=
  LogInfo "The button could not be clicked, trying to execute the element.".

(** A date of the calendar, as [datetime.date] accepts it. *)
Definition valid_date (d : dt.date) : Prop :=
  1 <= dt.year d <= 9999
  /\ 1 <= dt.month d <= 12
  /\ 1 <= dt.day d <= dt.days_in_month (dt.year d) (dt.month d).

Definition bad_day_format : Exn := ValueError "Bad day format in 'wanted_days'. ".

(** The day keys and the hour keys of a configuration document, in document
    order. *)
Definition day_keys (ds : list (string * list (string * list string))) : list string :=
  map fst ds.

Definition hour_keys_of (hours : list (string * list string)) : list string :=
  map fst hours.

Definition hour_keys (ds : list (string * list (string * list string))) : list string :=
  flat_map (fun dh => hour_keys_of (snd dh)) ds.

Definition parsed_days (keys : list string) (l : list dt.date) : Prop :=
  Forall2 (fun k d => JsonConfig._parse_day k = Ok d) keys l.

Definition parsed_hours (keys : list string) (l : list Hour.t) : Prop :=
  Forall2 (fun k h => Hour.__init__ k = Ok h) keys l.

(** The four names a row of the page can carry. *)
Definition page_names : list string :=
  [Activities.OPEN_BOX; Activities.CROSSFIT; Activities.CALISTHENICS;
   Activities.WEIGHTLIFTING].

Definition unregistered_warning : Event := Warn "Activity unregistered: None.".

(** The rows [get_activities] builds an entry from. *)
Definition is_activity_row (cells : list Cell) : bool :=
  negb (4 <? Z.of_nat (length cells)).

(** What the entry built from a row holds. *)
Definition row_gives (cells : list Cell) (entry : option Activity.t) : Prop :=
  exists c0 c1 c2 c3,
    cells = [c0; c1; c2; c3]
    /\ match entry with
       | Some a =>
           Activity.name a = text c1
           /\ Schedule.__init__ (text c0) = Ok (Activity.schedule a)
           /\ Reservation.__init__ (text c2) = Ok (Activity.reservation a)
           /\ Button.is_enabled (Activity.button a)
              = (String.length (text c3) =? 0)%nat
       | None => ~ In (text c1) page_names
       end.

Definition is_none (entry : option Activity.t) : bool :=
  match entry with
  | None => true
  | Some _ => false
  end.

Definition count_none (entries : list (option Activity.t)) : nat :=
  length (filter is_none entries).

(** A text made of continuation bytes, a text that is one character, and a
    text that does not begin in the middle of a character. *)
Fixpoint all_continuation (k : string) : Prop :=
  match k with
  | EmptyString => True
  | String c k' => Py.is_continuation c = true /\ all_continuation k'
  end.

Definition one_char (c : string) : Prop :=
  exists b k, c = String b k /\ Py.is_continuation b = false /\ all_continuation k.

Definition begins_char (s : string) : Prop :=
  match s with
  | EmptyString => True
  | String b _ => Py.is_continuation b = false
  end.

(** An integer that a C int holds. *)
Definition fits_c_int (z : Z) : Prop := dt.c_int_min <= z <= dt.c_int_max.

(** The clicks of elements among the events of a trace; the click [book]
    owes an activity (one, of the element of its button, when there is a free
    place and the button is enabled); and the record the booking pass logs
    with what [book] returned. *)
Definition is_element_click (e : Event) : bool :=
  match e with
  | ElementClick _ => true
  | _ => false
  end.

Definition click_of (a : Activity.t) : list Event :=
  if Reservation.is_free (Activity.reservation a)
  then match Activity.button a with
       | Button.Enabled el _ => [ElementClick el]
       | Button.Disabled _ => []
       end
  else [].

Definition outcome_log (a : Activity.t) : Event :=
  LogInfo ("Are we registered? "
           ++ Py.str_of_bool (Reservation.is_free (Activity.reservation a)) ++ ".")%string.

(** ** Example data *)

Definition text_cell (t : string) : Cell := mkCell t None None.

(** A cell that shows a reserve button: no text, a link and a plus icon. *)
Definition button_cell (el : WebElement) : Cell :=
  mkCell "" (Some el) (Some (Some "glyphicon glyphicon-plus")).

Definition row_yoga : list Cell :=
  [text_cell "14:00 - 16:00"; text_cell "Yoga"; text_cell "(3/15)"; button_cell 7%nat].

Definition row_crossfit : list Cell :=
  [text_cell "14:00 - 16:00"; text_cell "Crossfit"; text_cell "(13/15)";
   button_cell 8%nat].

(** A row of the already-registered shape: five cells. *)
Definition row_registered : list Cell :=
  [text_cell "14:00 - 16:00"; text_cell "Crossfit"; text_cell "(13/15)";
   button_cell 9%nat; text_cell "Reservado"].

Definition header_rows : list (list Cell) := [[]; []].

(** A browser in which no call raises. *)
Definition quiet_world (table : list (list Cell)) : World :=
  mkWorld [[]; table] (fun _ _ => false) (fun _ _ => false).

Definition config_crossfit_at_15 : JsonConfig.t :=
  JsonConfig.__init__
    (JsonConfig.mkdata "user" "secret" [("22/11/2020", [("15:00", ["Crossfit"])])]).

Definition config_with_class (wanted_class : string) : JsonConfig.t :=
  JsonConfig.__init__
    (JsonConfig.mkdata "user" "secret" [("22/11/2020", [("11:00", [wanted_class])])]).

Definition schedule_14_16 : Schedule.t :=
  Schedule.mk "14:00 - 16:00" (Hour.mk "14:00" 14 0) (Hour.mk "16:00" 16 0).

Definition crossfit_14_16 (r : Reservation.t) (b : Button.t) : Activity.t :=
  Activity.mk Activity.Crossfit schedule_14_16 r b.

Definition hour_15_00 : Hour.t := Hour.mk "15:00" 15 0.

(** A full class, a class with a free place and a reserve button, and a class
    with a free place whose last cell shows a text instead of a button. *)
Definition crossfit_full : Activity.t :=
  crossfit_14_16 (Reservation.mk "(15/15)" 15 15) (Button.Enabled 8%nat ButtonIcon.PLUS).

Definition crossfit_free : Activity.t :=
  crossfit_14_16 (Reservation.mk "(13/15)" 13 15) (Button.Enabled 8%nat ButtonIcon.PLUS).

Definition crossfit_no_button : Activity.t :=
  crossfit_14_16 (Reservation.mk "(13/15)" 13 15) (Button.Disabled None).

(** A browser in which every click raises and the script does not, and one
    in which both raise. *)
Definition stale_world : World := mkWorld [] (fun _ _ => true) (fun _ _ => false).

Definition dead_world : World := mkWorld [] (fun _ _ => true) (fun _ _ => true).

(** A configuration with a day but no hour. *)
Definition config_without_hour : JsonConfig.t :=
  JsonConfig.__init__ (JsonConfig.mkdata "user" "secret" [("22/11/2020", [])]).

(** A configuration with a day and an hour but no class. *)
Definition config_without_class : JsonConfig.t :=
  JsonConfig.__init__
    (JsonConfig.mkdata "user" "secret" [("22/11/2020", [("11:00", [])])]).

(** * Properties *)

(** ** The order on hours *)

Section HourOrder.

Lemma earlierb_spec a b : earlierb a b = true <-> earlier a b.
Proof. unfold earlierb, earlier. lia. Qed.

(** [<] as the program computes it is the order of the specification. *)
Lemma lt_truth a b : Py.truth (Hour.__lt__ a b) = earlierb a b.
Proof.
  unfold Hour.__lt__, earlierb.
  destruct (Hour.hour a <? Hour.hour b) eqn:E1; simpl; [reflexivity|].
  destruct (Hour.hour a =? Hour.hour b); reflexivity.
Qed.

Lemma lt_earlier a b : Py.truth (Hour.__lt__ a b) = true <-> earlier a b.
Proof. rewrite lt_truth. apply earlierb_spec. Qed.

Lemma eq_same_time a b : Hour.__eq__ a b = true <-> same_time a b.
Proof.
  unfold Hour.__eq__, same_time.
  destruct (Hour.hour a =? Hour.hour b) eqn:E; lia.
Qed.

Lemma earlier_irrefl a : ~ earlier a a.
Proof. unfold earlier. lia. Qed.

Lemma earlier_trans a b c : earlier a b -> earlier b c -> earlier a c.
Proof. unfold earlier. lia. Qed.

Lemma earlier_trichotomy a b :
  (earlier a b /\ ~ same_time a b /\ ~ earlier b a)
  \/ (~ earlier a b /\ same_time a b /\ ~ earlier b a)
  \/ (~ earlier a b /\ ~ same_time a b /\ earlier b a).
Proof. unfold earlier, same_time. lia. Qed.

(** What [>] and [<=] compute. *)
Lemma gt_is_not_lt a b : Hour.__gt__ a b = negb (earlierb a b).
Proof. unfold Hour.__gt__, Py.not_. now rewrite lt_truth. Qed.

Lemma le_is_hour_le a b :
  Py.truth (Hour.__le__ a b) = (Hour.hour a <=? Hour.hour b).
Proof.
  unfold Hour.__le__.
  destruct (Hour.hour a <=? Hour.hour b) eqn:E1; simpl; [reflexivity|].
  destruct (Hour.hour a =? Hour.hour b) eqn:E2; simpl; [lia|reflexivity].
Qed.

End HourOrder.

(** C1 (the order on hours). [<] and [==] are the lexicographic order and its
    equality, but [>] is computed as [not <] and [<=] returns [True] as soon as
    the hours are equal: every hour is both [==] and [>] itself, and 11:30 is
    [<=] 11:00 while being neither [<] nor [==] it. *)
Theorem Hour_gt_le_break_trichotomy :
  (forall a, Hour.__eq__ a a = true /\ Hour.__gt__ a a = true)
  /\ (exists a b,
        Hour.__init__ "11:30" = Ok a /\ Hour.__init__ "11:00" = Ok b
        /\ Py.truth (Hour.__le__ a b) = true
        /\ Py.truth (Hour.__lt__ a b) = false
        /\ Hour.__eq__ a b = false).
Proof.
  split.
  - intro a. split.
    + apply eq_same_time. unfold same_time. lia.
    + rewrite gt_is_not_lt. unfold earlierb. lia.
  - exists (Hour.mk "11:30" 11 30), (Hour.mk "11:00" 11 0).
    repeat split; reflexivity.
Qed.

(** ** The window of a schedule *)

Lemma contains_earlierb (s : Schedule.t) (t : Hour.t) :
  Schedule.contains t s
  = earlierb (Schedule.start s) t && earlierb t (Schedule.end_ s).
Proof.
  unfold Schedule.contains, Schedule.__contains__.
  destruct (Py.truth (Hour.__lt__ (Schedule.start s) t)) eqn:E.
  - rewrite lt_truth in *. now rewrite E.
  - rewrite E. rewrite lt_truth in E. now rewrite E.
Qed.

(** C5 (strict containment). [t in schedule] holds exactly when [t] lies
    strictly between the start and the end of the schedule, in the order by
    hour then minute; the start and the end themselves are not contained; the
    window 11:00 - 13:00 contains 11:30 but neither 11:00 nor 13:30. *)
Theorem Schedule_contains_strict :
  (forall s t,
      Schedule.contains t s = true
      <-> (earlier (Schedule.start s) t /\ earlier t (Schedule.end_ s)))
  /\ (forall s, Schedule.contains (Schedule.start s) s = false)
  /\ (forall s, Schedule.contains (Schedule.end_ s) s = false)
  /\ (exists s t1 t2 t3,
        Schedule.__init__ "11:00 - 13:00" = Ok s
        /\ Hour.__init__ "11:30" = Ok t1
        /\ Hour.__init__ "11:00" = Ok t2
        /\ Hour.__init__ "13:30" = Ok t3
        /\ Schedule.contains t1 s = true
        /\ Schedule.contains t2 s = false
        /\ Schedule.contains t3 s = false).
Proof.
  pose proof contains_earlierb as C.
  split; [|split; [|split]].
  - intros s t. rewrite C, andb_true_iff, !earlierb_spec. reflexivity.
  - intro s. rewrite C. apply andb_false_iff. left.
    apply not_true_is_false. rewrite earlierb_spec. apply earlier_irrefl.
  - intro s. rewrite C. apply andb_false_iff. right.
    apply not_true_is_false. rewrite earlierb_spec. apply earlier_irrefl.
  - eexists _, _, _, _. repeat split; reflexivity.
Qed.

(** ** Booking one activity *)

Lemma bind_Ok {S A B} (m : M S A) (k : A -> M S B) s a s' :
  m s = (Ok a, s') -> bind m k s = k a s'.
Proof. intro H. unfold bind. now rewrite H. Qed.

Lemma driver_calls_app tr tr' :
  driver_calls (tr ++ tr') = driver_calls tr ++ driver_calls tr'.
Proof. apply filter_app. Qed.

(** C7 (no space). When the reservation counter shows no free place, [book]
    returns [False], its only effect is the log record "No space at the
    moment", and no call is made to the browser. *)
Theorem book_without_space_does_not_click (w : World) (a : Activity.t) (tr : Trace) :
  Reservation.is_free (Activity.reservation a) = false ->
  Activity.book w a tr = (Ok false, tr ++ [LogInfo "No space at the moment"])
  /\ driver_calls (snd (Activity.book w a tr)) = driver_calls tr.
Proof.
  intro H.
  assert (E : Activity.book w a tr
              = (Ok false, tr ++ [LogInfo "No space at the moment"])).
  { unfold Activity.book. rewrite H. reflexivity. }
  split; [exact E|].
  rewrite E. simpl. rewrite driver_calls_app. simpl. apply app_nil_r.
Qed.

Lemma book_without_space_does_not_click_witness :
  Reservation.is_free (Activity.reservation crossfit_full) = false
  /\ Activity.book (quiet_world []) crossfit_full []
     = (Ok false, [] ++ [LogInfo "No space at the moment"])
  /\ driver_calls (snd (Activity.book (quiet_world []) crossfit_full []))
     = driver_calls [].
Proof.
  assert (H : Reservation.is_free (Activity.reservation crossfit_full) = false)
    by reflexivity.
  split; [exact H|].
  exact (book_without_space_does_not_click (quiet_world []) crossfit_full [] H).
Defined.

(** C2 (control absent). When there is a free place and the button was built
    from the text of a cell (it is not enabled), [book] makes no call to the
    browser and raises nothing, but it returns [True] and logs "Class
    registered", exactly as for an enabled button whose click succeeds: the
    caller cannot tell the two cases apart. *)
Theorem book_with_disabled_button_returns_True
  (w : World) (a : Activity.t) (icon : option string) (tr : Trace) :
  Reservation.is_free (Activity.reservation a) = true ->
  Activity.button a = Button.Disabled icon ->
  Activity.book w a tr
  = (Ok true,
     tr ++ [Warn "The Button cannot be clicked.";
            LogInfo ("Class registered: " ++ Activity.__repr__ a)%string])
  /\ driver_calls (snd (Activity.book w a tr)) = driver_calls tr
  /\ (forall el ico,
         click_raises w tr el = false ->
         fst (Activity.book w a tr)
         = fst (Activity.book w
                  (Activity.mk (Activity.class_ a) (Activity.schedule a)
                     (Activity.reservation a) (Button.Enabled el ico)) tr)).
Proof.
  intros Hfree Hbutton.
  assert (E : Activity.book w a tr
              = (Ok true,
                 tr ++ [Warn "The Button cannot be clicked.";
                        LogInfo ("Class registered: " ++ Activity.__repr__ a)%string])).
  { unfold Activity.book. rewrite Hfree, Hbutton. cbn.
    unfold bind, warnings_warn, logging_info, emit, ret.
    now rewrite <- app_assoc. }
  split; [exact E|split].
  - rewrite E. simpl. rewrite driver_calls_app. simpl. apply app_nil_r.
  - intros el ico Hclick. rewrite E.
    unfold Activity.book. simpl. rewrite Hfree.
    unfold bind, Button.click, try_except_finally, bind, element_click.
    rewrite Hclick. reflexivity.
Qed.

Lemma book_with_disabled_button_returns_True_witness :
  Reservation.is_free (Activity.reservation crossfit_no_button) = true
  /\ Activity.button crossfit_no_button = Button.Disabled None
  /\ fst (Activity.book (quiet_world []) crossfit_no_button []) = Ok true.
Proof.
  assert (H1 : Reservation.is_free (Activity.reservation crossfit_no_button) = true)
    by reflexivity.
  assert (H2 : Activity.button crossfit_no_button = Button.Disabled None)
    by reflexivity.
  split; [exact H1|split; [exact H2|]].
  exact (f_equal fst
           (proj1 (book_with_disabled_button_returns_True (quiet_world [])
                     crossfit_no_button [] H1 H2))).
Defined.

(** ** The booking pass *)

Lemma loop_body_Some (w : World) wa wh (a : Activity.t) :
  loop_body w wa wh (Some a) = if wanted wa wh a then attempt w a else ret tt.
Proof.
  unfold loop_body, wanted.
  destruct (Py.mem (Activity.name a) wa); reflexivity.
Qed.

(** C4 (unregistered row). A row whose class name is none of the four gives
    [None] and a warning, and [None] is appended to the activities; the booking
    loop then reads [activity.name] of [None] and raises AttributeError, which
    nothing catches: the pass ends there, and the Crossfit row that follows
    the Yoga row is never looked at. *)
Theorem unregistered_row_aborts_the_booking_pass :
  (forall a tr,
      CCB._get_activity a "Yoga" tr
      = (Ok None, tr ++ [Warn "Activity unregistered: None."]))
  /\ (forall w wa wh rest tr,
         booking_loop w wa wh (None :: rest) tr = (Raise none_has_no_name, tr))
  /\ (exists c,
         main_booking (quiet_world (header_rows ++ [row_yoga; row_crossfit]))
           (config_crossfit_at_15, [])
         = (Raise none_has_no_name, (c, [Warn "Activity unregistered: None."]))).
Proof.
  split; [|split].
  - intros a tr. reflexivity.
  - intros w wa wh rest tr. reflexivity.
  - eexists. vm_compute. reflexivity.
Qed.

(** C6, as the specification states it, fails: the guard of the loop does not
    look at the day. A Crossfit class from 14:00 to 16:00 passes the guard at
    15:00 whatever the day, while the three-way match of the specification is
    false for a day that is not wanted. *)
Lemma guard_ignores_the_day :
  wanted ["Crossfit"] hour_15_00 crossfit_no_button = true
  /\ BookingFilter_match ["Crossfit"] [dt.mkdate 2020 11 22] crossfit_no_button
       (dt.mkdate 2020 11 23) hour_15_00 = false.
Proof. split; reflexivity. Qed.

(** C6 (amended). The guard of [book] in the booking loop is the conjunction
    of two conditions: the name of the activity is among the wanted classes,
    and the target hour lies strictly inside its schedule. The loop attempts
    the booking exactly when the guard holds. The match of the specification
    is this guard and the test of the day, which the program does not make;
    the target hour the program passes is the literal 15:00. *)
Theorem booking_guard_is_class_and_hour :
  (forall wa wh a,
      wanted wa wh a
      = Py.mem (Activity.name a) wa
        && (earlierb (Schedule.start (Activity.schedule a)) wh
            && earlierb wh (Schedule.end_ (Activity.schedule a))))
  /\ (forall w wa wh a,
         loop_body w wa wh (Some a)
         = if wanted wa wh a then attempt w a else ret tt)
  /\ (forall wa days a day wh,
         BookingFilter_match wa days a day wh
         = wanted wa wh a && existsb (dt.eqb day) days)
  /\ Hour.__init__ wanted_hour_literal = Ok hour_15_00.
Proof.
  assert (G : forall wa wh a,
             wanted wa wh a
             = Py.mem (Activity.name a) wa
               && (earlierb (Schedule.start (Activity.schedule a)) wh
                   && earlierb wh (Schedule.end_ (Activity.schedule a)))).
  { intros wa wh a. unfold wanted. rewrite contains_earlierb.
    destruct (Py.mem (Activity.name a) wa); reflexivity. }
  split; [exact G|split; [|split]].
  - intros. apply loop_body_Some.
  - intros. unfold BookingFilter_match. now rewrite G.
  - reflexivity.
Qed.

Section BookingLoop.

Variable w : World.

(** The fallback script of [Button.click] does not raise. *)
Hypothesis script_never_raises : forall tr el, script_raises w tr el = false.

(** One attempt returns, whatever the outcome of [book]: its first event is
    the record "Activity: ...", it logs what [book] returned, which is
    whether there is a free place, and it clicks the element of the button
    once when there is a free place and the button is enabled. *)
Lemma attempt_returns (a : Activity.t) (tr : Trace) :
  exists rest,
    attempt w a tr = (Ok tt, tr ++ attempt_log a :: rest)
    /\ filter is_attempt_log rest = []
    /\ filter is_outcome_log rest = [outcome_log a]
    /\ filter is_element_click rest = click_of a.
Proof.
  destruct a as [c s r b].
  unfold attempt, Activity.book, attempt_log, outcome_log, click_of.
  cbn [Activity.reservation Activity.button].
  destruct (Reservation.is_free r) eqn:F.
  - destruct b as [icon|el ico].
    + eexists. split; [|split; [|split]].
      * cbn. unfold bind, logging_info, warnings_warn, emit, ret.
        rewrite <- !app_assoc. reflexivity.
      * destruct c; reflexivity.
      * destruct c; reflexivity.
      * reflexivity.
    + cbn. unfold bind at 1. unfold logging_info at 1. unfold emit at 1.
      unfold bind at 1. unfold bind at 1.
      unfold try_except_finally, bind, element_click, execute_script,
        logging_info, emit, ret.
      destruct (click_raises w _ el).
      * rewrite script_never_raises. eexists. split; [|split; [|split]].
        -- rewrite <- !app_assoc. reflexivity.
        -- destruct c; reflexivity.
        -- destruct c; reflexivity.
        -- reflexivity.
      * eexists. split; [|split; [|split]].
        -- rewrite <- !app_assoc. reflexivity.
        -- destruct c; reflexivity.
        -- destruct c; reflexivity.
        -- reflexivity.
  - eexists. split; [|split; [|split]].
    + cbn. unfold bind, logging_info, emit, ret.
      rewrite <- !app_assoc. reflexivity.
    + reflexivity.
    + reflexivity.
    + reflexivity.
Qed.

Lemma attempt_log_is_attempt (a : Activity.t) : is_attempt_log (attempt_log a) = true.
Proof. destruct a as [[] s r b]; reflexivity. Qed.

Lemma attempt_log_is_not_outcome (a : Activity.t) :
  is_outcome_log (attempt_log a) = false.
Proof. destruct a as [[] s r b]; reflexivity. Qed.

Lemma attempt_log_is_not_click (a : Activity.t) :
  is_element_click (attempt_log a) = false.
Proof. reflexivity. Qed.

End BookingLoop.

(** C8, as the specification states it, fails: an exception that leaves
    [book] ends the loop. In a browser where the click and the fallback script
    both raise, two Crossfit classes with a free place both pass the guard,
    the first is attempted, the loop raises, and the second is not
    attempted. *)
Lemma later_match_is_not_attempted_after_a_raise :
  filter (wanted ["Crossfit"] hour_15_00) [crossfit_free; crossfit_free]
  = [crossfit_free; crossfit_free]
  /\ fst (booking_loop dead_world ["Crossfit"] hour_15_00
            (map Some [crossfit_free; crossfit_free]) [])
     = Raise WebDriverException
  /\ filter is_attempt_log
       (snd (booking_loop dead_world ["Crossfit"] hour_15_00
               (map Some [crossfit_free; crossfit_free]) []))
     = [attempt_log crossfit_free].
Proof. repeat split. Qed.

(** C8 (amended). For every list of activities, given in table order, and a
    browser whose fallback script does not raise, the booking loop returns,
    and [book] is called on every activity that passes the guard, in table
    order, whatever [book] returned for the activities before it: the
    records "Activity: ..." are those of the activities that pass the guard;
    the outcome logged for each is whether it has a free place; and the
    elements clicked are those of the buttons of the ones that have a free
    place and an enabled button, once each. *)
Theorem booking_loop_attempts_every_match
  (w : World) (wa : list string) (wh : Hour.t) (acts : list Activity.t) (tr : Trace) :
  (forall tr el, script_raises w tr el = false) ->
  exists tr',
    booking_loop w wa wh (map Some acts) tr = (Ok tt, tr ++ tr')
    /\ filter is_attempt_log tr' = map attempt_log (filter (wanted wa wh) acts)
    /\ filter is_outcome_log tr' = map outcome_log (filter (wanted wa wh) acts)
    /\ filter is_element_click tr' = flat_map click_of (filter (wanted wa wh) acts).
Proof.
  intro H. revert tr.
  induction acts as [|a acts IH]; intro tr.
  - exists []. cbn. rewrite app_nil_r. auto.
  - cbn [map booking_loop filter]. rewrite loop_body_Some.
    destruct (wanted wa wh a) eqn:G.
    + destruct (@attempt_returns w H a tr) as (rest & E & Hatt & Hout & Hclk).
      destruct (IH (tr ++ attempt_log a :: rest))
        as (tr' & E' & Hatt' & Hout' & Hclk').
      exists ((attempt_log a :: rest) ++ tr'). split; [|split; [|split]].
      * rewrite (bind_Ok _ _ _ E), E'. now rewrite <- app_assoc.
      * rewrite filter_app. cbn [filter]. rewrite attempt_log_is_attempt.
        rewrite Hatt, Hatt'. reflexivity.
      * rewrite filter_app. cbn [filter]. rewrite attempt_log_is_not_outcome.
        rewrite Hout, Hout'. reflexivity.
      * rewrite filter_app. cbn [filter flat_map]. rewrite attempt_log_is_not_click.
        rewrite Hclk, Hclk'. reflexivity.
    + destruct (IH tr) as (tr' & E' & Hatt' & Hout' & Hclk').
      exists tr'. repeat split; auto.
Qed.

Lemma booking_loop_attempts_every_match_witness :
  (forall tr el, script_raises stale_world tr el = false)
  /\ exists tr',
       booking_loop stale_world ["Crossfit"] hour_15_00
         (map Some [crossfit_free; crossfit_full; crossfit_no_button; crossfit_free]) []
       = (Ok tt, [] ++ tr')
       /\ filter is_attempt_log tr'
          = map attempt_log
              [crossfit_free; crossfit_full; crossfit_no_button; crossfit_free]
       /\ filter is_outcome_log tr'
          = map outcome_log
              [crossfit_free; crossfit_full; crossfit_no_button; crossfit_free]
       /\ filter is_element_click tr' = [ElementClick 8%nat; ElementClick 8%nat].
Proof.
  assert (H : forall tr el, script_raises stale_world tr el = false)
    by (intros; reflexivity).
  split; [exact H|].
  exact (booking_loop_attempts_every_match stale_world ["Crossfit"] hour_15_00
           [crossfit_free; crossfit_full; crossfit_no_button; crossfit_free] [] H).
Defined.

(** ** Scraping the table *)

Lemma row_body_many_cells (i : nat) (cells : list Cell) activities tr :
  4 < Z.of_nat (length cells) ->
  CCB.row_body i cells activities tr = (Ok activities, tr).
Proof.
  intro H. unfold CCB.row_body.
  destruct (1 <? Z.of_nat i); [|reflexivity].
  apply Z.ltb_lt in H. now rewrite H.
Qed.

(** Past the two header rows the index of a row plays no part. *)
Lemma row_body_index (i j : nat) (cells : list Cell) :
  (2 <= i)%nat -> (2 <= j)%nat -> CCB.row_body i cells = CCB.row_body j cells.
Proof.
  intros Hi Hj. unfold CCB.row_body.
  assert (Ei : (1 <? Z.of_nat i) = true) by (apply Z.ltb_lt; lia).
  assert (Ej : (1 <? Z.of_nat j) = true) by (apply Z.ltb_lt; lia).
  now rewrite Ei, Ej.
Qed.

Lemma rows_loop_index (rows : list (list Cell)) :
  forall i j activities tr,
    (2 <= i)%nat -> (2 <= j)%nat ->
    CCB.rows_loop i rows activities tr = CCB.rows_loop j rows activities tr.
Proof.
  induction rows as [|row rows IH]; intros i j activities tr Hi Hj.
  - reflexivity.
  - cbn [CCB.rows_loop]. unfold bind.
    rewrite (row_body_index row Hi Hj).
    destruct (CCB.row_body j row activities tr) as [[acts'|e] tr'].
    + apply IH; lia.
    + reflexivity.
Qed.

Lemma rows_loop_drop (pre : list (list Cell)) :
  forall i cells post activities tr,
    (2 <= i + length pre)%nat ->
    4 < Z.of_nat (length cells) ->
    CCB.rows_loop i (pre ++ cells :: post) activities tr
    = CCB.rows_loop i (pre ++ post) activities tr.
Proof.
  induction pre as [|row pre IH]; intros i cells post activities tr Hi Hc.
  - cbn [app CCB.rows_loop]. cbn [length] in Hi.
    rewrite (bind_Ok _ _ _ (row_body_many_cells i cells activities tr Hc)).
    apply rows_loop_index; lia.
  - cbn [app CCB.rows_loop]. unfold bind.
    destruct (CCB.row_body i row activities tr) as [[acts'|e] tr'].
    + apply IH; [cbn [length] in Hi; lia|exact Hc].
    + reflexivity.
Qed.

(** C10 (rows of more than four cells). The body of the row loop leaves the
    list of activities and the trace as they were for such a row: no Activity
    is built, nothing is logged or warned, nothing is raised. Hence
    [get_activities] gives for a table with such a row (after the two header
    rows) what it gives for the table without the row. *)
Theorem row_with_more_than_four_cells_is_dropped
  (t0 : list (list Cell)) (pre post : list (list Cell)) (cells : list Cell)
  (rest : list (list (list Cell))) (cr sr : Trace -> WebElement -> bool)
  (i : nat) (activities : list (option Activity.t)) (tr : Trace) :
  4 < Z.of_nat (length cells) ->
  (2 <= length pre)%nat ->
  CCB.row_body i cells activities tr = (Ok activities, tr)
  /\ CCB.get_activities (mkWorld (t0 :: (pre ++ cells :: post) :: rest) cr sr) tr
     = CCB.get_activities (mkWorld (t0 :: (pre ++ post) :: rest) cr sr) tr.
Proof.
  intros Hc Hpre. split.
  - now apply row_body_many_cells.
  - unfold CCB.get_activities. cbn [tables nth_error].
    apply rows_loop_drop; [lia|exact Hc].
Qed.

Lemma row_with_more_than_four_cells_is_dropped_witness :
  4 < Z.of_nat (length row_registered)
  /\ (2 <= length (header_rows ++ [row_crossfit]))%nat
  /\ CCB.row_body 3 row_registered [] [] = (Ok [], [])
  /\ CCB.get_activities
       (quiet_world ((header_rows ++ [row_crossfit]) ++ row_registered :: [row_crossfit])) []
     = CCB.get_activities
         (quiet_world ((header_rows ++ [row_crossfit]) ++ [row_crossfit])) [].
Proof.
  assert (Hc : 4 < Z.of_nat (length row_registered)) by (simpl; lia).
  assert (Hp : (2 <= length (header_rows ++ [row_crossfit]))%nat) by (simpl; lia).
  split; [exact Hc|split; [exact Hp|]].
  exact (row_with_more_than_four_cells_is_dropped [] (header_rows ++ [row_crossfit])
           [row_crossfit] row_registered [] (fun _ _ => false) (fun _ _ => false)
           3 [] [] Hc Hp).
Defined.

(** ** The constructor of Hour *)

Lemma rev_onto_rev_onto (s : string) :
  forall acc t, Py.rev_onto (Py.rev_onto s acc) t = Py.rev_onto acc (s ++ t)%string.
Proof.
  induction s as [|c s IH]; intros acc t; cbn.
  - reflexivity.
  - now rewrite IH.
Qed.

Lemma append_empty_r (s : string) : (s ++ "")%string = s.
Proof. induction s as [|c s IH]; cbn; [reflexivity|now rewrite IH]. Qed.

Lemma rev_rev_onto (s : string) : Py.rev (Py.rev_onto s "") = s.
Proof.
  unfold Py.rev. rewrite rev_onto_rev_onto. cbn. apply append_empty_r.
Qed.

Lemma prefix_empty (s : string) : prefix "" s = true.
Proof. destruct s; reflexivity. Qed.

Lemma prefix_char_other (c c' : ascii) (s : string) :
  c' <> c -> prefix (String c "") (String c' s) = false.
Proof.
  intro H. cbn. destruct (ascii_dec c c') as [E|E]; [congruence|reflexivity].
Qed.

Lemma prefix_char_same (c : ascii) (s : string) :
  prefix (String c "") (String c s) = true.
Proof.
  cbn. destruct (ascii_dec c c) as [E|E]; [apply prefix_empty|congruence].
Qed.

(** Splitting at a one-character separator, from a state of [split_go] in
    which [cur] has been read: a piece free of the separator is read whole. *)
Lemma split_go_last (c : ascii) (s : string) :
  forall cur,
    free_of c s ->
    Py.split_go (String c "") 0 cur s = [Py.rev (Py.rev_onto s cur)].
Proof.
  induction s as [|c' s IH]; intros cur H.
  - reflexivity.
  - destruct H as [Hc Hs]. cbn [Py.split_go].
    rewrite (prefix_char_other s Hc). cbn [Py.rev_onto]. now apply IH.
Qed.

Lemma split_go_first (c : ascii) (s1 s2 : string) :
  forall cur,
    free_of c s1 -> free_of c s2 ->
    Py.split_go (String c "") 0 cur (s1 ++ String c s2)%string
    = [Py.rev (Py.rev_onto s1 cur); Py.rev (Py.rev_onto s2 "")].
Proof.
  induction s1 as [|c' s1 IH]; intros cur H1 H2.
  - cbn [append Py.split_go]. rewrite prefix_char_same.
    cbn [String.length Nat.sub Py.rev_onto]. now rewrite split_go_last.
  - destruct H1 as [Hc H1]. cbn [append Py.split_go].
    rewrite (prefix_char_other _ Hc). cbn [Py.rev_onto]. now apply IH.
Qed.

Lemma split_two (c : ascii) (s1 s2 : string) :
  free_of c s1 -> free_of c s2 ->
  Py.split (String c "") (s1 ++ String c s2)%string = [s1; s2].
Proof.
  intros H1 H2. unfold Py.split. rewrite split_go_first by assumption.
  now rewrite !rev_rev_onto.
Qed.

(** C9, as the specification states it, fails: the token 25:75 constructs an
    Hour whose hour is 25 and whose minutes are 75. *)
Lemma Hour_25_75_is_constructed :
  Hour.__init__ "25:75" = Ok (Hour.mk "25:75" 25 75)
  /\ ~ Hour_in_range (Hour.mk "25:75" 25 75).
Proof.
  split; [reflexivity|]. unfold Hour_in_range. cbn. lia.
Qed.

(** C9 (amended). For a token [hs:ms] whose two parts are integer literals,
    the constructor returns the Hour that holds the token and the two
    integers as they are, without a check of their ranges: the value
    satisfies the invariant exactly when the two integers are in range. *)
Theorem Hour_init_stores_components_unchecked (hs ms : string) (x y : Z) :
  free_of ":" hs -> free_of ":" ms ->
  Py.int hs = Some x -> Py.int ms = Some y ->
  Hour.__init__ (hs ++ ":" ++ ms)%string = Ok (Hour.mk (hs ++ ":" ++ ms)%string x y)
  /\ (Hour_in_range (Hour.mk (hs ++ ":" ++ ms)%string x y)
      <-> (0 <= x <= 23 /\ 0 <= y <= 59)).
Proof.
  intros Fh Fm Ih Im. split.
  - unfold Hour.__init__. cbn [append].
    rewrite split_two by assumption. cbn [Py.unpack2 res_bind].
    unfold Py.int_res. rewrite Ih, Im. reflexivity.
  - unfold Hour_in_range. cbn. reflexivity.
Qed.

Lemma Hour_init_stores_components_unchecked_witness :
  free_of ":" "25" /\ free_of ":" "75"
  /\ Py.int "25" = Some 25 /\ Py.int "75" = Some 75
  /\ Hour.__init__ "25:75" = Ok (Hour.mk "25:75" 25 75).
Proof.
  assert (F1 : free_of ":" "25") by (cbn; repeat split; discriminate).
  assert (F2 : free_of ":" "75") by (cbn; repeat split; discriminate).
  assert (I1 : Py.int "25" = Some 25) by reflexivity.
  assert (I2 : Py.int "75" = Some 75) by reflexivity.
  repeat (split; [assumption|]).
  exact (proj1 (Hour_init_stores_components_unchecked "25" "75" F1 F2 I1 I2)).
Defined.

(** ** The class names of the configuration *)

Lemma known_class_has_page_name (tok : string) :
  Py.mem tok CLASS_MAP_keys = true ->
  dict_get CLASS_MAP tok = Some (page_name tok).
Proof.
  unfold page_name. cbn.
  destruct (tok =? "Open Box")%string; [reflexivity|].
  destruct (tok =? "Crossfit")%string; [reflexivity|].
  destruct (tok =? "Calisthenics")%string; [reflexivity|].
  destruct (tok =? "Weightlifting")%string; [reflexivity|].
  discriminate.
Qed.

Lemma find_app_first {A} (f : A -> bool) (l1 l2 : list A) :
  find f (l1 ++ l2)
  = match find f l1 with
    | Some x => Some x
    | None => find f l2
    end.
Proof.
  induction l1 as [|a l1 IH]; cbn; [reflexivity|].
  destruct (f a); [reflexivity|exact IH].
Qed.

(** Two runs in sequence: the outcome for the tokens of both. *)
Lemma classes_outcome_seq (toks1 toks2 : list string) (m1 m2 : M JsonConfig.t unit)
  (self : JsonConfig.t) :
  classes_outcome toks1 (JsonConfig._classes self) (m1 self) ->
  (forall self', classes_outcome toks2 (JsonConfig._classes self') (m2 self')) ->
  classes_outcome (toks1 ++ toks2) (JsonConfig._classes self)
    (bind m1 (fun _ => m2) self).
Proof.
  unfold classes_outcome. intros H1 H2. rewrite find_app_first. unfold bind.
  destruct (find unknown_class toks1) as [tok|].
  - destruct (m1 self) as [[[]|e] self1]; cbn in H1; [discriminate|].
    exact H1.
  - destruct (m1 self) as [[[]|e] self1]; cbn in H1; destruct H1 as [E1 C1];
      [|discriminate].
    specialize (H2 self1).
    destruct (find unknown_class toks2) as [tok|]; [exact H2|].
    destruct H2 as [E2 C2]. split; [exact E2|].
    rewrite C2, C1, map_app. now rewrite app_assoc.
Qed.

Lemma classes_outcome_nil (self : JsonConfig.t) :
  classes_outcome [] (JsonConfig._classes self) (ret tt self).
Proof. unfold classes_outcome. cbn. now rewrite app_nil_r. Qed.

Lemma get_classes_classes_outcome (wanted_classes : list string) :
  forall self,
    classes_outcome wanted_classes (JsonConfig._classes self)
      (JsonConfig._get_classes_classes wanted_classes self).
Proof.
  induction wanted_classes as [|tok rest IH]; intro self.
  - apply classes_outcome_nil.
  - change (tok :: rest) with ([tok] ++ rest).
    cbn [JsonConfig._get_classes_classes app].
    change (tok :: rest) with ([tok] ++ rest).
    apply classes_outcome_seq; [|exact IH].
    unfold classes_outcome. cbn [find]. unfold unknown_class.
    destruct (Py.mem tok CLASS_MAP_keys) eqn:E; cbn [negb].
    + rewrite (known_class_has_page_name _ E). cbn. auto.
    + reflexivity.
Qed.

Lemma get_classes_hours_outcome (hours : list (string * list string)) :
  hours_parse hours ->
  forall self,
    classes_outcome (tokens_of_hours hours) (JsonConfig._classes self)
      (JsonConfig._get_classes_hours hours self).
Proof.
  induction 1 as [|[hour wanted_classes] rest [h Hh] _ IH]; intro self.
  - apply classes_outcome_nil.
  - cbn [JsonConfig._get_classes_hours tokens_of_hours flat_map snd fst] in *.
    rewrite Hh. unfold bind at 1. unfold of_res at 1.
    unfold bind at 1. unfold JsonConfig._hours_append at 1.
    match goal with
    | |- classes_outcome _ _ (bind _ _ ?s1) =>
        change (JsonConfig._classes self) with (JsonConfig._classes s1)
    end.
    apply classes_outcome_seq; [apply get_classes_classes_outcome|exact IH].
Qed.

Lemma get_classes_days_outcome (ds : list (string * list (string * list string))) :
  keys_parse ds ->
  forall self,
    classes_outcome (tokens_of_days ds) (JsonConfig._classes self)
      (JsonConfig._get_classes_days ds self).
Proof.
  induction 1 as [|[day hours] rest [[d Hd] Hh] _ IH]; intro self.
  - apply classes_outcome_nil.
  - cbn [JsonConfig._get_classes_days tokens_of_days flat_map snd fst] in *.
    rewrite Hd. unfold bind at 1. unfold of_res at 1.
    unfold bind at 1. unfold JsonConfig._days_append at 1.
    match goal with
    | |- classes_outcome _ _ (bind _ _ ?s1) =>
        change (JsonConfig._classes self) with (JsonConfig._classes s1)
    end.
    apply classes_outcome_seq; [now apply get_classes_hours_outcome|exact IH].
Qed.

(** C3, as the specification states it, fails: the vocabulary it gives is
    that of the page. The token Halterofília, in that vocabulary, raises
    ClassError in a configuration; the token Calisthenics, outside it, is
    accepted. *)
Lemma page_vocabulary_is_not_the_configuration_vocabulary :
  In "Halterofília" spec_vocabulary
  /\ fst (JsonConfig._get_classes (config_with_class "Halterofília"))
     = Raise (ClassError_ "Halterofília")
  /\ ~ In "Calisthenics" spec_vocabulary
  /\ fst (JsonConfig._get_classes (config_with_class "Calisthenics")) = Ok tt.
Proof.
  split; [cbn; tauto|split; [reflexivity|split; [|reflexivity]]].
  cbn. intros [H|[H|[H|[H|[]]]]]; discriminate H.
Qed.

(** C3 (amended). The names a configuration may use are Open Box, Crossfit,
    Calisthenics and Weightlifting; they stand for the page names Open Box,
    Crossfit, Calisteni and Halterofília. In a document whose day and hour
    keys are well formed, [_get_classes] raises ClassError for the first
    token, in document order, that is not one of the four names, with a
    message that lists them; when every token is one of them it returns, and
    has appended the page name of each token to [_classes]. *)
Theorem unknown_configuration_class_raises_ClassError (self : JsonConfig.t) :
  keys_parse (JsonConfig.days (JsonConfig._data self)) ->
  CLASS_MAP_keys = ["Open Box"; "Crossfit"; "Calisthenics"; "Weightlifting"]
  /\ map page_name CLASS_MAP_keys
     = ["Open Box"; "Crossfit"; "Calisteni"; "Halterofília"]
  /\ (forall tok,
         ClassError_ tok
         = ClassError tok
             "Class not defined. Must be one of: ['Open Box', 'Crossfit', 'Calisthenics', 'Weightlifting'].")
  /\ match find unknown_class
             (tokens_of_days (JsonConfig.days (JsonConfig._data self))) with
     | Some tok => fst (JsonConfig._get_classes self) = Raise (ClassError_ tok)
     | None =>
         fst (JsonConfig._get_classes self) = Ok tt
         /\ JsonConfig._classes (snd (JsonConfig._get_classes self))
            = JsonConfig._classes self
              ++ map page_name
                   (tokens_of_days (JsonConfig.days (JsonConfig._data self)))
     end.
Proof.
  intro H. repeat split; try reflexivity.
  exact (get_classes_days_outcome H self).
Qed.

Lemma unknown_configuration_class_raises_ClassError_witness :
  keys_parse (JsonConfig.days (JsonConfig._data (config_with_class "Yoga")))
  /\ fst (JsonConfig._get_classes (config_with_class "Yoga"))
     = Raise (ClassError_ "Yoga").
Proof.
  assert (H : keys_parse
                (JsonConfig.days (JsonConfig._data (config_with_class "Yoga")))).
  { repeat constructor; eexists; reflexivity. }
  split; [exact H|].
  exact (proj2 (proj2 (proj2
           (unknown_configuration_class_raises_ClassError
              (config_with_class "Yoga") H)))).
Defined.

(** * Further properties of the code *)

(** ** Comparison of hours *)

(** X1. [<] on hours is a strict total order with respect to [==]: it is
    irreflexive and transitive, and for two hours exactly one of [a < b],
    [a == b], [b < a] is true. *)
Theorem Hour_lt_strict_total_order :
  (forall a, Py.truth (Hour.__lt__ a a) = false)
  /\ (forall a b c,
         Py.truth (Hour.__lt__ a b) = true ->
         Py.truth (Hour.__lt__ b c) = true ->
         Py.truth (Hour.__lt__ a c) = true)
  /\ (forall a b,
         (Py.truth (Hour.__lt__ a b) = true /\ Hour.__eq__ a b = false
          /\ Py.truth (Hour.__lt__ b a) = false)
         \/ (Py.truth (Hour.__lt__ a b) = false /\ Hour.__eq__ a b = true
             /\ Py.truth (Hour.__lt__ b a) = false)
         \/ (Py.truth (Hour.__lt__ a b) = false /\ Hour.__eq__ a b = false
             /\ Py.truth (Hour.__lt__ b a) = true)).
Proof.
  split; [|split].
  - intro a. apply not_true_is_false. rewrite lt_earlier. apply earlier_irrefl.
  - intros a b c. rewrite !lt_earlier. apply earlier_trans.
  - intros a b. rewrite !lt_truth. unfold earlierb.
    assert (E : Hour.__eq__ a b
                = (Hour.hour a =? Hour.hour b) && (Hour.minutes a =? Hour.minutes b)).
    { unfold Hour.__eq__. now destruct (Hour.hour a =? Hour.hour b). }
    rewrite E. lia.
Qed.

(** X2. [==] on hours is an equivalence that looks at the two integers only,
    not at the token, and [<] respects it. *)
Theorem Hour_eq_equivalence :
  (forall a, Hour.__eq__ a a = true)
  /\ (forall a b, Hour.__eq__ a b = Hour.__eq__ b a)
  /\ (forall a b c,
         Hour.__eq__ a b = true -> Hour.__eq__ b c = true -> Hour.__eq__ a c = true)
  /\ (forall t t' h m, Hour.__eq__ (Hour.mk t h m) (Hour.mk t' h m) = true)
  /\ (forall a a' b b',
         Hour.__eq__ a a' = true -> Hour.__eq__ b b' = true ->
         Hour.__lt__ a b = Hour.__lt__ a' b').
Proof.
  split; [|split; [|split; [|split]]].
  - intro a. apply (proj2 (eq_same_time a a)). unfold same_time. lia.
  - intros a b. unfold Hour.__eq__.
    destruct (Hour.hour a =? Hour.hour b) eqn:E1;
      destruct (Hour.hour b =? Hour.hour a) eqn:E2; lia.
  - intros a b c. rewrite !eq_same_time. unfold same_time. lia.
  - intros t t' h m. apply (proj2 (eq_same_time _ _)). unfold same_time. cbn. lia.
  - intros a a' b b'. rewrite !eq_same_time. unfold same_time.
    intros [H1 H2] [H3 H4]. unfold Hour.__lt__. now rewrite H1, H2, H3, H4.
Qed.

(** X3. What [<=], [>=] and [>] compute. [a <= b] is true exactly when the
    hour of [a] is at most that of [b], whatever the minutes; [a >= b] is true
    exactly when the hour of [a] is greater than that of [b], so that no hour
    is [>=] itself; [a > b] is true exactly when [a < b] is not. *)
Theorem Hour_le_ge_gt_computed (a b : Hour.t) :
  (Py.truth (Hour.__le__ a b) = true <-> Hour.hour a <= Hour.hour b)
  /\ (Hour.__ge__ a b = true <-> Hour.hour b < Hour.hour a)
  /\ Hour.__ge__ a a = false
  /\ (Hour.__gt__ a b = true <-> ~ earlier a b).
Proof.
  assert (G : forall x y, Hour.__ge__ x y = negb (Hour.hour x <=? Hour.hour y)).
  { intros x y. unfold Hour.__ge__, Py.not_. now rewrite le_is_hour_le. }
  split; [|split; [|split]].
  - rewrite le_is_hour_le. lia.
  - rewrite G. rewrite negb_true_iff. lia.
  - rewrite G. rewrite negb_false_iff. lia.
  - rewrite gt_is_not_lt, negb_true_iff, <- earlierb_spec.
    destruct (earlierb a b); split; intro H; congruence.
Qed.

(** ** Parsing the scraped texts *)

Lemma prefix_append (s t : string) : prefix s (s ++ t)%string = true.
Proof.
  induction s as [|c s IH]; cbn.
  - apply prefix_empty.
  - destruct (ascii_dec c c) as [_|E]; [exact IH|congruence].
Qed.

(** Once a separator has been found, the rest of it is passed over. *)
Lemma split_go_skip (sep r : string) :
  forall cur s, Py.split_go sep (String.length r) cur (r ++ s)%string
                = Py.split_go sep 0 cur s.
Proof.
  induction r as [|c r IH]; intros cur s.
  - reflexivity.
  - cbn [String.length append Py.split_go]. apply IH.
Qed.

(** A piece free of the first character of the separator is read whole, up
    to the separator that follows it or to the end of the string. *)
Lemma split_sep_piece (a : ascii) (r s1 s2 : string) :
  forall cur,
    free_of a s1 ->
    Py.split_go (String a r) 0 cur (s1 ++ String a r ++ s2)%string
    = Py.rev (Py.rev_onto s1 cur) :: Py.split_go (String a r) 0 "" s2.
Proof.
  induction s1 as [|c s1 IH]; intros cur H.
  - cbn [append Py.split_go Py.rev_onto].
    change (String a (r ++ s2))%string with (String a r ++ s2)%string.
    rewrite prefix_append. cbn [String.length Nat.sub append].
    rewrite Nat.sub_0_r. now rewrite split_go_skip.
  - destruct H as [Hc H]. cbn [append Py.split_go].
    assert (P : prefix (String a r) (String c (s1 ++ String a (r ++ s2))) = false).
    { cbn. destruct (ascii_dec a c) as [E|_]; [congruence|reflexivity]. }
    rewrite P. cbn [Py.rev_onto]. now apply IH.
Qed.

Lemma split_sep_last (a : ascii) (r s : string) :
  forall cur,
    free_of a s ->
    Py.split_go (String a r) 0 cur s = [Py.rev (Py.rev_onto s cur)].
Proof.
  induction s as [|c s IH]; intros cur H.
  - reflexivity.
  - destruct H as [Hc H]. cbn [Py.split_go].
    assert (P : prefix (String a r) (String c s) = false).
    { cbn. destruct (ascii_dec a c) as [E|_]; [congruence|reflexivity]. }
    rewrite P. cbn [Py.rev_onto]. now apply IH.
Qed.

Lemma split_pieces_2 (a : ascii) (r s1 s2 : string) :
  free_of a s1 -> free_of a s2 ->
  Py.split (String a r) (s1 ++ String a r ++ s2)%string = [s1; s2].
Proof.
  intros H1 H2. unfold Py.split.
  rewrite split_sep_piece, split_sep_last by assumption.
  now rewrite !rev_rev_onto.
Qed.

Lemma split_pieces_3 (a : ascii) (r s1 s2 s3 : string) :
  free_of a s1 -> free_of a s2 -> free_of a s3 ->
  Py.split (String a r) (s1 ++ String a r ++ s2 ++ String a r ++ s3)%string
  = [s1; s2; s3].
Proof.
  intros H1 H2 H3. unfold Py.split.
  rewrite !split_sep_piece, split_sep_last by assumption.
  now rewrite !rev_rev_onto.
Qed.

Lemma split_go_not_nil (sep : string) (s : string) :
  forall k cur, Py.split_go sep k cur s <> [].
Proof.
  induction s as [|c s IH]; intros k cur; cbn [Py.split_go].
  - discriminate.
  - destruct k as [|k]; [|apply IH].
    destruct (prefix sep (String c s)); [discriminate|apply IH].
Qed.

Lemma drop_continuations_app (k rest : string) :
  all_continuation k -> begins_char rest ->
  Py.drop_continuations (k ++ rest)%string = rest.
Proof.
  induction k as [|c k IH]; intros Hk Hr.
  - destruct rest as [|b rest]; [reflexivity|]. cbn in *. now rewrite Hr.
  - destruct Hk as [Hc Hk]. cbn. rewrite Hc. now apply IH.
Qed.

Lemma starts_char_continuations (k : string) :
  all_continuation k -> Py.starts_char k = false.
Proof.
  induction k as [|c k IH]; intro Hk; [reflexivity|].
  destruct Hk as [Hc Hk]. cbn. rewrite Hc. now apply IH.
Qed.

Lemma starts_char_app (x k : string) (b : ascii) :
  Py.is_continuation b = false -> Py.starts_char (x ++ String b k)%string = true.
Proof.
  intro Hb. induction x as [|c x IH]; cbn.
  - now rewrite Hb.
  - rewrite IH. apply orb_true_r.
Qed.

Lemma drop_last_char_app (x k : string) (b : ascii) :
  Py.is_continuation b = false -> all_continuation k ->
  Py.drop_last_char (x ++ String b k)%string = x.
Proof.
  intros Hb Hk. induction x as [|c x IH]; cbn.
  - now rewrite starts_char_continuations.
  - rewrite starts_char_app by exact Hb. now rewrite IH.
Qed.

(** X4. The text of a value is the token it was built from: for an Hour, a
    Schedule and a Reservation that were constructed, [str] gives back the
    token and [repr] the token inside the name of the class. *)
Theorem str_gives_back_the_token (h sch res : string)
  (v : Hour.t) (s : Schedule.t) (r : Reservation.t) :
  Hour.__init__ h = Ok v ->
  Schedule.__init__ sch = Ok s ->
  Reservation.__init__ res = Ok r ->
  (Hour.__str__ v = h /\ Hour.__repr__ v = ("Hour(" ++ h ++ ")")%string)
  /\ (Schedule.__str__ s = sch
      /\ Schedule.__repr__ s = ("Schedule(" ++ sch ++ ")")%string)
  /\ (Reservation.__str__ r = res
      /\ Reservation.__repr__ r = ("Reservation(" ++ res ++ ")")%string).
Proof.
  intros Hv Hs Hr.
  assert (Ev : Hour.__str__ v = h).
  { unfold Hour.__init__ in Hv.
    destruct (Py.unpack2 (Py.split ":" h)) as [[a b]|e]; cbn in Hv; [|discriminate].
    destruct (Py.int_res a); cbn in Hv; [|discriminate].
    destruct (Py.int_res b); cbn in Hv; [|discriminate].
    injection Hv as <-. reflexivity. }
  assert (Es : Schedule.__str__ s = sch).
  { unfold Schedule.__init__ in Hs.
    destruct (Py.unpack2 (Py.split " - " sch)) as [[a b]|e]; cbn in Hs; [|discriminate].
    destruct (Hour.__init__ a); cbn in Hs; [|discriminate].
    destruct (Hour.__init__ b); cbn in Hs; [|discriminate].
    injection Hs as <-. reflexivity. }
  assert (Er : Reservation.__str__ r = res).
  { unfold Reservation.__init__ in Hr.
    destruct (Py.unpack2 (Py.split "/" (Py.slice_1_m1 res))) as [[a b]|e];
      cbn in Hr; [|discriminate].
    destruct (Py.int_res a); cbn in Hr; [|discriminate].
    destruct (Py.int_res b); cbn in Hr; [|discriminate].
    injection Hr as <-. reflexivity. }
  unfold Hour.__repr__, Schedule.__repr__, Reservation.__repr__.
  rewrite Ev, Es, Er. repeat split.
Qed.

Lemma str_gives_back_the_token_witness :
  Hour.__init__ "20:30" = Ok (Hour.mk "20:30" 20 30)
  /\ Schedule.__init__ "14:00 - 16:00" = Ok schedule_14_16
  /\ Reservation.__init__ "(13/15)" = Ok (Reservation.mk "(13/15)" 13 15)
  /\ Hour.__repr__ (Hour.mk "20:30" 20 30) = "Hour(20:30)"
  /\ Schedule.__repr__ schedule_14_16 = "Schedule(14:00 - 16:00)"
  /\ Reservation.__repr__ (Reservation.mk "(13/15)" 13 15) = "Reservation((13/15))".
Proof.
  assert (H1 : Hour.__init__ "20:30" = Ok (Hour.mk "20:30" 20 30)) by reflexivity.
  assert (H2 : Schedule.__init__ "14:00 - 16:00" = Ok schedule_14_16) by reflexivity.
  assert (H3 : Reservation.__init__ "(13/15)" = Ok (Reservation.mk "(13/15)" 13 15))
    by reflexivity.
  pose proof (@str_gives_back_the_token _ _ _ _ _ _ H1 H2 H3) as [[_ R1] [[_ R2] [_ R3]]].
  repeat (split; [assumption|]). exact R3.
Defined.

Lemma string_append_assoc (s t u : string) :
  ((s ++ t) ++ u)%string = (s ++ t ++ u)%string.
Proof. induction s as [|c s IH]; cbn; [reflexivity|now rewrite IH]. Qed.

(** X5. An Hour needs a token with exactly one colon: a token without a colon
    and a token with two colons or more both raise ValueError, at the
    unpacking of the split. *)
Theorem Hour_init_needs_one_colon (h s1 s2 s3 : string) :
  free_of ":" h -> free_of ":" s1 -> free_of ":" s2 ->
  Hour.__init__ h = Raise (ValueError "not enough values to unpack (expected 2)")
  /\ Hour.__init__ (s1 ++ ":" ++ s2 ++ ":" ++ s3)%string
     = Raise (ValueError "too many values to unpack (expected 2)").
Proof.
  intros Hh H1 H2. split.
  - unfold Hour.__init__, Py.split. now rewrite split_sep_last.
  - unfold Hour.__init__, Py.split. rewrite !split_sep_piece by assumption.
    destruct (Py.split_go ":" 0 "" s3) as [|x l] eqn:E.
    + now apply split_go_not_nil in E.
    + reflexivity.
Qed.

Lemma Hour_init_needs_one_colon_witness :
  free_of ":" "1130" /\ free_of ":" "11" /\ free_of ":" "30"
  /\ Hour.__init__ "1130"
     = Raise (ValueError "not enough values to unpack (expected 2)")
  /\ Hour.__init__ "11:30:00"
     = Raise (ValueError "too many values to unpack (expected 2)").
Proof.
  assert (F0 : free_of ":" "1130") by (cbn; repeat split; discriminate).
  assert (F1 : free_of ":" "11") by (cbn; repeat split; discriminate).
  assert (F2 : free_of ":" "30") by (cbn; repeat split; discriminate).
  repeat (split; [assumption|]).
  exact (@Hour_init_needs_one_colon "1130" "11" "30" "00" F0 F1 F2).
Defined.

Lemma unpack2_raises_ValueError (l : list string) (e : Exn) :
  Py.unpack2 l = Raise e -> exists msg, e = ValueError msg.
Proof.
  destruct l as [|a [|b [|c l]]]; cbn; intro H; inversion H; eauto.
Qed.

Lemma int_res_raises_ValueError (s : string) (e : Exn) :
  Py.int_res s = Raise e -> exists msg, e = ValueError msg.
Proof.
  unfold Py.int_res. destruct (Py.int s); intro H; inversion H; eauto.
Qed.

Lemma Hour_init_raises_ValueError (h : string) (e : Exn) :
  Hour.__init__ h = Raise e -> exists msg, e = ValueError msg.
Proof.
  unfold Hour.__init__.
  destruct (Py.unpack2 (Py.split ":" h)) as [[a b]|e0] eqn:U; cbn.
  - destruct (Py.int_res a) eqn:A; cbn.
    + destruct (Py.int_res b) eqn:B; cbn; [discriminate|].
      intro H. injection H as <-. eapply int_res_raises_ValueError; eassumption.
    + intro H. injection H as <-. eapply int_res_raises_ValueError; eassumption.
  - intro H. injection H as <-. eapply unpack2_raises_ValueError; eassumption.
Qed.

Lemma Schedule_init_raises_ValueError (s : string) (e : Exn) :
  Schedule.__init__ s = Raise e -> exists msg, e = ValueError msg.
Proof.
  unfold Schedule.__init__. intro H.
  destruct (Py.unpack2 (Py.split " - " s)) as [[a b]|e0] eqn:U; cbn in H.
  - destruct (Hour.__init__ a) eqn:A; cbn in H.
    + destruct (Hour.__init__ b) eqn:B; cbn in H; [discriminate|].
      injection H as <-. eapply Hour_init_raises_ValueError; eassumption.
    + injection H as <-. eapply Hour_init_raises_ValueError; eassumption.
  - injection H as <-. eapply unpack2_raises_ValueError; eassumption.
Qed.

Lemma Reservation_init_raises_ValueError (s : string) (e : Exn) :
  Reservation.__init__ s = Raise e -> exists msg, e = ValueError msg.
Proof.
  unfold Reservation.__init__. intro H.
  destruct (Py.unpack2 (Py.split "/" (Py.slice_1_m1 s))) as [[a b]|e0] eqn:U;
    cbn in H.
  - destruct (Py.int_res a) eqn:A; cbn in H.
    + destruct (Py.int_res b) eqn:B; cbn in H; [discriminate|].
      injection H as <-. eapply int_res_raises_ValueError; eassumption.
    + injection H as <-. eapply int_res_raises_ValueError; eassumption.
  - injection H as <-. eapply unpack2_raises_ValueError; eassumption.
Qed.

(** X6. The constructors of the three value classes raise nothing but
    ValueError, whatever the text they are given. *)
Theorem value_constructors_raise_only_ValueError (s : string) (e : Exn) :
  Hour.__init__ s = Raise e
  \/ Schedule.__init__ s = Raise e
  \/ Reservation.__init__ s = Raise e ->
  exists msg, e = ValueError msg.
Proof.
  intros [H|[H|H]].
  - eapply Hour_init_raises_ValueError; eassumption.
  - eapply Schedule_init_raises_ValueError; eassumption.
  - eapply Reservation_init_raises_ValueError; eassumption.
Qed.

Lemma value_constructors_raise_only_ValueError_witness :
  Schedule.__init__ "11:00-13:00"
  = Raise (ValueError "not enough values to unpack (expected 2)")
  /\ exists msg, ValueError "not enough values to unpack (expected 2)" = ValueError msg.
Proof.
  assert (H : Schedule.__init__ "11:00-13:00"
              = Raise (ValueError "not enough values to unpack (expected 2)"))
    by reflexivity.
  split; [exact H|].
  exact (@value_constructors_raise_only_ValueError _ _ (or_intror (or_introl H))).
Defined.

(** X7. A Reservation is read from what stands between the first and the
    last character of the text, whatever these two characters are: the two
    integers around the slash become [places] and [total], no order between
    them is required, and [is_free] is true exactly when [places < total]. *)
Theorem Reservation_init_reads_between_the_ends
  (c1 c2 ps ts : string) (p t : Z) :
  one_char c1 -> one_char c2 -> begins_char ps ->
  free_of "/" ps -> free_of "/" ts ->
  Py.int ps = Some p -> Py.int ts = Some t ->
  let res := (c1 ++ ps ++ "/" ++ ts ++ c2)%string in
  Reservation.__init__ res = Ok (Reservation.mk res p t)
  /\ (Reservation.is_free (Reservation.mk res p t) = true <-> p < t).
Proof.
  intros (b1 & k1 & -> & Hb1 & Hk1) (b2 & k2 & -> & Hb2 & Hk2) Bp Fp Ft Ip It res.
  split.
  - assert (S : Py.slice_1_m1 res = (ps ++ "/" ++ ts)%string).
    { unfold res, Py.slice_1_m1. cbn [append Py.drop_first_char].
      rewrite drop_continuations_app; [|exact Hk1|].
      - replace (ps ++ String "/" (ts ++ String b2 k2))%string
          with ((ps ++ "/" ++ ts) ++ String b2 k2)%string
          by (now rewrite !string_append_assoc).
        now apply drop_last_char_app.
      - destruct ps as [|b ps]; [reflexivity|exact Bp]. }
    unfold Reservation.__init__. rewrite S.
    rewrite split_pieces_2 by assumption.
    cbn [Py.unpack2 res_bind]. unfold Py.int_res. now rewrite Ip, It.
  - unfold Reservation.is_free. cbn. lia.
Qed.

Lemma Reservation_init_reads_between_the_ends_witness :
  one_char "«" /\ one_char "»" /\ begins_char "15"
  /\ free_of "/" "15" /\ free_of "/" "13"
  /\ Py.int "15" = Some 15 /\ Py.int "13" = Some 13
  /\ Reservation.__init__ "«15/13»" = Ok (Reservation.mk "«15/13»" 15 13)
  /\ (Reservation.is_free (Reservation.mk "«15/13»" 15 13) = true <-> 15 < 13).
Proof.
  assert (C1 : one_char "«").
  { eexists _, _. split; [reflexivity|]. cbn. auto. }
  assert (C2 : one_char "»").
  { eexists _, _. split; [reflexivity|]. cbn. auto. }
  assert (B : begins_char "15") by reflexivity.
  assert (F1 : free_of "/" "15") by (cbn; repeat split; discriminate).
  assert (F2 : free_of "/" "13") by (cbn; repeat split; discriminate).
  assert (I1 : Py.int "15" = Some 15) by reflexivity.
  assert (I2 : Py.int "13" = Some 13) by reflexivity.
  repeat (split; [assumption|]).
  exact (@Reservation_init_reads_between_the_ends "«" "»" "15" "13" 15 13
           C1 C2 B F1 F2 I1 I2).
Defined.

(** X8. A Schedule is read from a text with the separator " - " between two
    tokens without a space: its start and its end are the Hours of the two
    tokens. *)
Theorem Schedule_init_splits_at_the_dash (st en : string) (a b : Hour.t) :
  free_of " " st -> free_of " " en ->
  Hour.__init__ st = Ok a -> Hour.__init__ en = Ok b ->
  Schedule.__init__ (st ++ " - " ++ en)%string
  = Ok (Schedule.mk (st ++ " - " ++ en)%string a b).
Proof.
  intros Fs Fe Ha Hb. unfold Schedule.__init__.
  rewrite split_pieces_2 by assumption.
  cbn [Py.unpack2 res_bind]. now rewrite Ha, Hb.
Qed.

Lemma Schedule_init_splits_at_the_dash_witness :
  free_of " " "14:00" /\ free_of " " "16:00"
  /\ Hour.__init__ "14:00" = Ok (Hour.mk "14:00" 14 0)
  /\ Hour.__init__ "16:00" = Ok (Hour.mk "16:00" 16 0)
  /\ Schedule.__init__ "14:00 - 16:00" = Ok schedule_14_16.
Proof.
  assert (F1 : free_of " " "14:00") by (cbn; repeat split; discriminate).
  assert (F2 : free_of " " "16:00") by (cbn; repeat split; discriminate).
  assert (H1 : Hour.__init__ "14:00" = Ok (Hour.mk "14:00" 14 0)) by reflexivity.
  assert (H2 : Hour.__init__ "16:00" = Ok (Hour.mk "16:00" 16 0)) by reflexivity.
  repeat (split; [assumption|]).
  exact (@Schedule_init_splits_at_the_dash "14:00" "16:00" _ _ F1 F2 H1 H2).
Defined.

(** X9. Nothing requires the start of a Schedule to come before its end, and a
    Schedule whose start is not earlier than its end contains no hour. *)
Theorem Schedule_inverted_window_is_empty (s : Schedule.t) (t : Hour.t) :
  ~ earlier (Schedule.start s) (Schedule.end_ s) ->
  Schedule.contains t s = false.
Proof.
  intro H. apply not_true_is_false. intro C. apply H.
  rewrite contains_earlierb, andb_true_iff, !earlierb_spec in C.
  destruct C as [C1 C2]. exact (earlier_trans C1 C2).
Qed.

Lemma Schedule_inverted_window_is_empty_witness :
  Schedule.__init__ "16:00 - 14:00"
  = Ok (Schedule.mk "16:00 - 14:00" (Hour.mk "16:00" 16 0) (Hour.mk "14:00" 14 0))
  /\ ~ earlier (Hour.mk "16:00" 16 0) (Hour.mk "14:00" 14 0)
  /\ Schedule.contains hour_15_00
       (Schedule.mk "16:00 - 14:00" (Hour.mk "16:00" 16 0) (Hour.mk "14:00" 14 0))
     = false.
Proof.
  assert (H : ~ earlier (Hour.mk "16:00" 16 0) (Hour.mk "14:00" 14 0)).
  { unfold earlier. cbn. lia. }
  split; [reflexivity|split; [exact H|]].
  exact (@Schedule_inverted_window_is_empty
           (Schedule.mk "16:00 - 14:00" (Hour.mk "16:00" 16 0) (Hour.mk "14:00" 14 0))
           hour_15_00 H).
Defined.

(** ** Clicking and booking *)

(** What [click] does on an enabled button, path by path. *)
Lemma click_enabled (w : World) (el : WebElement) (ico : string) (tr : Trace) :
  Button.click w (Button.Enabled el ico) tr
  = if click_raises w tr el
    then ((if script_raises w (tr ++ [ElementClick el; could_not_click]) el
           then Raise WebDriverException else Ok tt),
          tr ++ [ElementClick el; could_not_click;
                 ExecuteScript click_script el; could_not_book])
    else (Ok tt, tr ++ [ElementClick el; LogInfo "Class booked!"; could_not_book]).
Proof.
  unfold Button.click, try_except_finally, bind, element_click, execute_script,
    logging_info, emit, could_not_click, could_not_book, click_script.
  destruct (click_raises w tr el).
  - rewrite <- !app_assoc. cbn [app].
    destruct (script_raises w _ el); rewrite <- ?app_assoc; reflexivity.
  - rewrite <- !app_assoc. reflexivity.
Qed.

(** X10. [click] on an enabled button clicks the element once, and runs the
    fallback script exactly when that click raised; it raises exactly when the
    click and the script both raise; and on every path, also after "Class
    booked!", the last record it logs is "Could not book the class". *)
Theorem Button_click_enabled_paths
  (w : World) (el : WebElement) (ico : string) (tr : Trace) :
  exists new,
    snd (Button.click w (Button.Enabled el ico) tr) = tr ++ new ++ [could_not_book]
    /\ driver_calls new
       = ElementClick el
           :: (if click_raises w tr el then [ExecuteScript click_script el] else [])
    /\ (In (LogInfo "Class booked!") new <-> click_raises w tr el = false)
    /\ (fst (Button.click w (Button.Enabled el ico) tr) = Raise WebDriverException
        <-> click_raises w tr el = true
            /\ script_raises w (tr ++ [ElementClick el; could_not_click]) el = true)
    /\ (fst (Button.click w (Button.Enabled el ico) tr) = Ok tt
        \/ fst (Button.click w (Button.Enabled el ico) tr) = Raise WebDriverException).
Proof.
  rewrite click_enabled.
  destruct (click_raises w tr el) eqn:C.
  - exists [ElementClick el; could_not_click; ExecuteScript click_script el].
    cbn [fst snd]. repeat split; try reflexivity.
    + cbn. intros [H|[H|[H|[]]]]; discriminate H.
    + discriminate.
    + destruct (script_raises w _ el); [reflexivity|discriminate].
    + intros [_ H]. now rewrite H.
    + destruct (script_raises w _ el); auto.
  - exists [ElementClick el; LogInfo "Class booked!"].
    cbn [fst snd]. repeat split; try reflexivity; try discriminate.
    + cbn. auto.
    + intros [H _]. discriminate H.
    + auto.
Qed.

(** X11. As long as the fallback script does not raise, [book] returns
    whether the reservation has a free place, and nothing else: [True] also
    when the button is not enabled, and when the click raised. *)
Theorem book_returns_is_free (w : World) (a : Activity.t) (tr : Trace) :
  (forall tr' el, script_raises w tr' el = false) ->
  fst (Activity.book w a tr) = Ok (Reservation.is_free (Activity.reservation a)).
Proof.
  intro H. unfold Activity.book.
  destruct (Reservation.is_free (Activity.reservation a)); [|reflexivity].
  destruct (Activity.button a) as [icon|el ico].
  - reflexivity.
  - unfold bind at 1. rewrite click_enabled.
    destruct (click_raises w tr el); [rewrite H|]; reflexivity.
Qed.

Lemma book_returns_is_free_witness :
  (forall tr' el, script_raises stale_world tr' el = false)
  /\ fst (Activity.book stale_world crossfit_free [])
     = Ok (Reservation.is_free (Activity.reservation crossfit_free)).
Proof.
  assert (H : forall tr' el, script_raises stale_world tr' el = false)
    by (intros; reflexivity).
  split; [exact H|].
  exact (@book_returns_is_free stale_world crossfit_free [] H).
Defined.

(** X12. [book] calls the browser only when there is a free place and the
    button is enabled; it then starts with one click of the element of the
    button. *)
Theorem book_calls_the_browser_only_when_free_and_enabled
  (w : World) (a : Activity.t) (tr : Trace) :
  exists new,
    snd (Activity.book w a tr) = tr ++ new
    /\ match Activity.button a with
       | Button.Enabled el _ =>
           if Reservation.is_free (Activity.reservation a)
           then exists rest, driver_calls new = ElementClick el :: rest
           else driver_calls new = []
       | Button.Disabled _ => driver_calls new = []
       end.
Proof.
  unfold Activity.book.
  destruct (Reservation.is_free (Activity.reservation a)).
  - destruct (Activity.button a) as [icon|el ico].
    + cbn. unfold bind, warnings_warn, logging_info, emit, ret. cbn.
      eexists. rewrite <- app_assoc. split; reflexivity.
    + unfold bind at 1. rewrite click_enabled.
      destruct (click_raises w tr el).
      * destruct (script_raises w _ el).
        -- eexists. split; [reflexivity|]. eexists. reflexivity.
        -- cbn. unfold bind, logging_info, emit, ret. cbn.
           eexists. rewrite <- app_assoc. split; [reflexivity|].
           eexists. reflexivity.
      * cbn. unfold bind, logging_info, emit, ret. cbn.
        eexists. rewrite <- app_assoc. split; [reflexivity|].
        eexists. reflexivity.
  - exists [LogInfo "No space at the moment"].
    split; [reflexivity|]. destruct (Activity.button a); reflexivity.
Qed.

(** ** More on the booking loop *)

(** X13. The activities that do not pass the guard play no part in the
    booking loop: the loop over a list of activities is the loop over those
    that pass the guard, for every browser and from every trace. *)
Theorem booking_loop_skips_unwanted
  (w : World) (wa : list string) (wh : Hour.t) (acts : list Activity.t) (tr : Trace) :
  booking_loop w wa wh (map Some acts) tr
  = booking_loop w wa wh (map Some (filter (wanted wa wh) acts)) tr.
Proof.
  revert tr. induction acts as [|a acts IH]; intro tr.
  - reflexivity.
  - cbn [map filter booking_loop]. rewrite loop_body_Some.
    destruct (wanted wa wh a) eqn:G.
    + cbn [map booking_loop]. rewrite loop_body_Some, G.
      unfold bind. destruct (attempt w a tr) as [[[]|e] tr']; [apply IH|reflexivity].
    + unfold bind, ret. apply IH.
Qed.

(** X14. When the click of the element and the fallback script both raise,
    the exception leaves [book] and the loop: the trace ends with the script
    and "Could not book the class", no outcome is logged, and the activities
    that follow are not looked at. *)
Theorem booking_loop_stops_when_click_and_script_raise
  (w : World) (wa : list string) (wh : Hour.t) (a : Activity.t)
  (el : WebElement) (ico : string) (rest : list (option Activity.t)) (tr : Trace) :
  wanted wa wh a = true ->
  Reservation.is_free (Activity.reservation a) = true ->
  Activity.button a = Button.Enabled el ico ->
  click_raises w (tr ++ [attempt_log a]) el = true ->
  script_raises w (tr ++ [attempt_log a; ElementClick el; could_not_click]) el = true ->
  booking_loop w wa wh (Some a :: rest) tr
  = (Raise WebDriverException,
     tr ++ [attempt_log a; ElementClick el; could_not_click;
            ExecuteScript click_script el; could_not_book]).
Proof.
  intros G F B C S.
  cbn [booking_loop]. rewrite loop_body_Some, G.
  unfold bind at 1. unfold attempt.
  unfold bind at 1. unfold logging_info at 1. unfold emit at 1.
  fold (attempt_log a).
  unfold bind at 1. unfold Activity.book. rewrite F, B.
  unfold bind at 1. rewrite click_enabled, C.
  replace ((tr ++ [attempt_log a]) ++ [ElementClick el; could_not_click])
    with (tr ++ [attempt_log a; ElementClick el; could_not_click])
    by (now rewrite <- app_assoc).
  rewrite S. now rewrite <- app_assoc.
Qed.

Lemma booking_loop_stops_when_click_and_script_raise_witness :
  wanted ["Crossfit"] hour_15_00 crossfit_free = true
  /\ Reservation.is_free (Activity.reservation crossfit_free) = true
  /\ Activity.button crossfit_free = Button.Enabled 8%nat ButtonIcon.PLUS
  /\ booking_loop dead_world ["Crossfit"] hour_15_00
       [Some crossfit_free; Some crossfit_free] []
     = (Raise WebDriverException,
        [] ++ [attempt_log crossfit_free; ElementClick 8%nat; could_not_click;
               ExecuteScript click_script 8%nat; could_not_book]).
Proof.
  assert (G : wanted ["Crossfit"] hour_15_00 crossfit_free = true) by reflexivity.
  assert (F : Reservation.is_free (Activity.reservation crossfit_free) = true)
    by reflexivity.
  assert (B : Activity.button crossfit_free = Button.Enabled 8%nat ButtonIcon.PLUS)
    by reflexivity.
  repeat (split; [assumption|]).
  exact (@booking_loop_stops_when_click_and_script_raise dead_world ["Crossfit"]
           hour_15_00 crossfit_free 8%nat ButtonIcon.PLUS [Some crossfit_free] []
           G F B eq_refl eq_refl).
Defined.

(** ** Reading the configuration *)

Lemma unpack3_raises_ValueError (l : list string) (e : Exn) :
  Py.unpack3 l = Raise e -> exists msg, e = ValueError msg.
Proof.
  destruct l as [|a [|b [|c [|d l]]]]; cbn; intro H; inversion H; eauto.
Qed.

(** What [date] answers: a date of the calendar, ValueError for three C ints
    that are not one, OverflowError when one of the three is no C int. *)
Lemma date_outcome (y m d : Z) :
  match dt.date_ y m d with
  | Ok x => x = dt.mkdate y m d /\ valid_date x
  | Raise (ValueError _) =>
      (fits_c_int y /\ fits_c_int m /\ fits_c_int d)
      /\ ~ valid_date (dt.mkdate y m d)
  | Raise (OverflowError _) => ~ (fits_c_int y /\ fits_c_int m /\ fits_c_int d)
  | Raise _ => False
  end.
Proof.
  unfold dt.date_, dt.c_int, fits_c_int, valid_date, dt.c_int_max, dt.c_int_min.
  destruct (2147483647 <? y) eqn:Y1; cbn [res_bind]; [lia|].
  destruct (y <? -2147483648) eqn:Y2; cbn [res_bind]; [lia|].
  destruct (2147483647 <? m) eqn:M1; cbn [res_bind]; [lia|].
  destruct (m <? -2147483648) eqn:M2; cbn [res_bind]; [lia|].
  destruct (2147483647 <? d) eqn:D1; cbn [res_bind]; [lia|].
  destruct (d <? -2147483648) eqn:D2; cbn [res_bind]; [lia|].
  destruct ((1 <=? y) && (y <=? 9999) && (1 <=? m) && (m <=? 12)
            && (1 <=? d) && (d <=? dt.days_in_month y m)) eqn:E;
    cbn [dt.year dt.month dt.day].
  - split; [reflexivity|lia].
  - lia.
Qed.

(** X15. Whatever the text of a day key, [_parse_day] has one of three
    outcomes: it returns a date of the calendar (year 1 to 9999, month 1 to
    12, day within the month); or it raises the ValueError "Bad day format in
    'wanted_days'. "; or, when the text is three integers around two slashes
    and one of them is no C int, it lets the OverflowError of [date] out,
    which [except ValueError] does not catch. *)
Theorem parse_day_outcomes (day : string) :
  (exists d, JsonConfig._parse_day day = Ok d /\ valid_date d)
  \/ JsonConfig._parse_day day = Raise bad_day_format
  \/ (exists ds ms ys d m y msg,
         Py.unpack3 (Py.split "/" day) = Ok (ds, ms, ys)
         /\ Py.int ds = Some d /\ Py.int ms = Some m /\ Py.int ys = Some y
         /\ ~ (fits_c_int y /\ fits_c_int m /\ fits_c_int d)
         /\ JsonConfig._parse_day day = Raise (OverflowError msg)).
Proof.
  unfold JsonConfig._parse_day.
  destruct (Py.unpack3 (Py.split "/" day)) as [[[ds ms] ys]|e] eqn:U; cbn [res_bind].
  - unfold Py.int_res.
    destruct (Py.int ys) as [y|] eqn:Y; cbn [res_bind]; [|now right; left].
    destruct (Py.int ms) as [m|] eqn:Mo; cbn [res_bind]; [|now right; left].
    destruct (Py.int ds) as [d|] eqn:D; cbn [res_bind]; [|now right; left].
    pose proof (date_outcome y m d) as O.
    destruct (dt.date_ y m d) as [x|[]]; try contradiction.
    + left. exists x. split; [reflexivity|apply O].
    + right. left. reflexivity.
    + right. right. exists ds, ms, ys, d, m, y, msg. repeat split; try assumption.
      all: try reflexivity.
  - right. left. apply unpack3_raises_ValueError in U as [msg ->]. reflexivity.
Qed.

(** X16. A day key is read day first. For the text [d/m/y] of three integer
    literals, [_parse_day] gives the date of year [y], month [m] and day [d]
    when that is a date of the calendar; the ValueError of a bad format when
    the three are C ints but no such date; and OverflowError when one of them
    is no C int. *)
Theorem parse_day_reads_day_month_year (ds ms ys : string) (d m y : Z) :
  free_of "/" ds -> free_of "/" ms -> free_of "/" ys ->
  Py.int ds = Some d -> Py.int ms = Some m -> Py.int ys = Some y ->
  let day := (ds ++ "/" ++ ms ++ "/" ++ ys)%string in
  (valid_date (dt.mkdate y m d) ->
   JsonConfig._parse_day day = Ok (dt.mkdate y m d))
  /\ (fits_c_int y /\ fits_c_int m /\ fits_c_int d ->
      ~ valid_date (dt.mkdate y m d) ->
      JsonConfig._parse_day day = Raise bad_day_format)
  /\ (~ (fits_c_int y /\ fits_c_int m /\ fits_c_int d) ->
      exists msg, JsonConfig._parse_day day = Raise (OverflowError msg)).
Proof.
  intros Fd Fm Fy Id Im Iy day.
  assert (E : JsonConfig._parse_day day
              = match dt.date_ y m d with
                | Ok x => Ok x
                | Raise (ValueError _) | Raise (NoHoursError _) =>
                    Raise bad_day_format
                | Raise e => Raise e
                end).
  { unfold JsonConfig._parse_day, day.
    rewrite split_pieces_3 by assumption. cbn [Py.unpack3 res_bind].
    unfold Py.int_res. rewrite Iy, Im, Id. reflexivity. }
  rewrite E. pose proof (date_outcome y m d) as O.
  assert (V : valid_date (dt.mkdate y m d) ->
              fits_c_int y /\ fits_c_int m /\ fits_c_int d).
  { unfold valid_date, fits_c_int, dt.c_int_min, dt.c_int_max. cbn.
    intros (Hy & Hm & Hd).
    assert (dt.days_in_month y m <= 31).
    { unfold dt.days_in_month.
      destruct (m =? 2); [destruct (dt.is_leap y); lia|].
      destruct ((m =? 4) || (m =? 6) || (m =? 9) || (m =? 11)); lia. }
    lia. }
  destruct (dt.date_ y m d) as [x|[]]; try contradiction.
  - destruct O as [-> Hv]. split; [reflexivity|split].
    + intros _ N. contradiction.
    + intro N. apply V in Hv. contradiction.
  - destruct O as [Hf Hn]. split; [intro Hv; contradiction|split].
    + reflexivity.
    + intro N. contradiction.
  - split; [intro Hv; apply V in Hv; contradiction|split].
    + intros Hf. contradiction.
    + intros _. eauto.
Qed.

Lemma parse_day_reads_day_month_year_witness :
  free_of "/" "29" /\ free_of "/" "02" /\ free_of "/" "2020"
  /\ Py.int "29" = Some 29 /\ Py.int "02" = Some 2 /\ Py.int "2020" = Some 2020
  /\ valid_date (dt.mkdate 2020 2 29)
  /\ JsonConfig._parse_day "29/02/2020" = Ok (dt.mkdate 2020 2 29).
Proof.
  assert (F1 : free_of "/" "29") by (cbn; repeat split; discriminate).
  assert (F2 : free_of "/" "02") by (cbn; repeat split; discriminate).
  assert (F3 : free_of "/" "2020") by (cbn; repeat split; discriminate).
  assert (I1 : Py.int "29" = Some 29) by reflexivity.
  assert (I2 : Py.int "02" = Some 2) by reflexivity.
  assert (I3 : Py.int "2020" = Some 2020) by reflexivity.
  assert (V : valid_date (dt.mkdate 2020 2 29)) by (unfold valid_date; cbn; lia).
  repeat (split; [assumption|]).
  exact (proj1 (@parse_day_reads_day_month_year "29" "02" "2020" 29 2 2020
                  F1 F2 F3 I1 I2 I3) V).
Defined.

Lemma find_app_none {A} (f : A -> bool) (l1 l2 : list A) :
  find f (l1 ++ l2) = None -> find f l1 = None /\ find f l2 = None.
Proof.
  rewrite find_app_first. destruct (find f l1); [discriminate|auto].
Qed.

(** The loop over the class tokens, when all are known. *)
Lemma get_classes_classes_state (wanted_classes : list string) :
  forall self,
    find unknown_class wanted_classes = None ->
    JsonConfig._get_classes_classes wanted_classes self
    = (Ok tt,
       JsonConfig.mk (JsonConfig._data self)
         (JsonConfig._classes self ++ map page_name wanted_classes)
         (JsonConfig._hours self) (JsonConfig._days self)).
Proof.
  induction wanted_classes as [|tok rest IH]; intros self H.
  - cbn. rewrite app_nil_r. now destruct self.
  - cbn [find] in H. destruct (unknown_class tok) eqn:U; [discriminate|].
    unfold unknown_class in U. apply negb_false_iff in U.
    cbn [JsonConfig._get_classes_classes]. rewrite U. cbn [negb].
    rewrite (known_class_has_page_name _ U).
    unfold bind at 1. unfold JsonConfig._classes_append at 1.
    rewrite IH by exact H. cbn. now rewrite <- app_assoc.
Qed.

Lemma get_classes_hours_state (hours : list (string * list string)) :
  hours_parse hours ->
  forall self,
    find unknown_class (tokens_of_hours hours) = None ->
    exists H,
      parsed_hours (hour_keys_of hours) H
      /\ JsonConfig._get_classes_hours hours self
         = (Ok tt,
            JsonConfig.mk (JsonConfig._data self)
              (JsonConfig._classes self ++ map page_name (tokens_of_hours hours))
              (JsonConfig._hours self ++ H) (JsonConfig._days self)).
Proof.
  induction 1 as [|[hour wanted_classes] rest [h Hh] _ IH]; intros self U.
  - exists []. split; [constructor|]. cbn. rewrite !app_nil_r. now destruct self.
  - cbn [tokens_of_hours flat_map snd fst] in *.
    apply find_app_none in U as [U1 U2].
    cbn [JsonConfig._get_classes_hours]. rewrite Hh.
    unfold bind at 1. unfold of_res at 1.
    unfold bind at 1. unfold JsonConfig._hours_append at 1.
    unfold bind at 1. rewrite get_classes_classes_state by exact U1.
    cbn [JsonConfig._data JsonConfig._classes JsonConfig._hours JsonConfig._days].
    edestruct IH as (H & PH & E); [exact U2|]. rewrite E.
    exists (h :: H). split; [constructor; assumption|].
    cbn [JsonConfig._data JsonConfig._classes JsonConfig._hours JsonConfig._days].
    rewrite map_app, <- !app_assoc. reflexivity.
Qed.

Lemma get_classes_days_state (ds : list (string * list (string * list string))) :
  keys_parse ds ->
  forall self,
    find unknown_class (tokens_of_days ds) = None ->
    exists D H,
      parsed_days (day_keys ds) D
      /\ parsed_hours (hour_keys ds) H
      /\ JsonConfig._get_classes_days ds self
         = (Ok tt,
            JsonConfig.mk (JsonConfig._data self)
              (JsonConfig._classes self ++ map page_name (tokens_of_days ds))
              (JsonConfig._hours self ++ H) (JsonConfig._days self ++ D)).
Proof.
  induction 1 as [|[day hours] rest [[d Hd] Hh] _ IH]; intros self U.
  - exists [], []. split; [constructor|split; [constructor|]].
    cbn. rewrite !app_nil_r. now destruct self.
  - cbn [tokens_of_days flat_map snd fst] in *.
    apply find_app_none in U as [U1 U2].
    cbn [JsonConfig._get_classes_days]. rewrite Hd.
    unfold bind at 1. unfold of_res at 1.
    unfold bind at 1. unfold JsonConfig._days_append at 1.
    unfold bind at 1.
    edestruct (get_classes_hours_state Hh) as (H1 & PH1 & E1); [exact U1|].
    rewrite E1.
    cbn [JsonConfig._data JsonConfig._classes JsonConfig._hours JsonConfig._days].
    edestruct IH as (D & H2 & PD & PH2 & E2); [exact U2|]. rewrite E2.
    exists (d :: D), (H1 ++ H2). split; [|split].
    + constructor; assumption.
    + unfold hour_keys. cbn [flat_map snd]. now apply Forall2_app.
    + cbn [JsonConfig._data JsonConfig._classes JsonConfig._hours JsonConfig._days].
      rewrite map_app, <- !app_assoc. reflexivity.
Qed.

(** X17. On a document whose keys are well formed and whose class tokens are
    all known, [_get_classes] returns and leaves the document as it was; it
    has appended, in document order, the date of every day key to [_days],
    the Hour of every hour key to [_hours], and the page name of every class
    token to [_classes]. *)
Theorem get_classes_appends_in_document_order (self : JsonConfig.t) :
  let ds := JsonConfig.days (JsonConfig._data self) in
  keys_parse ds ->
  find unknown_class (tokens_of_days ds) = None ->
  exists D H,
    parsed_days (day_keys ds) D
    /\ parsed_hours (hour_keys ds) H
    /\ JsonConfig._get_classes self
       = (Ok tt,
          JsonConfig.mk (JsonConfig._data self)
            (JsonConfig._classes self ++ map page_name (tokens_of_days ds))
            (JsonConfig._hours self ++ H) (JsonConfig._days self ++ D)).
Proof.
  intros ds K U. unfold JsonConfig._get_classes.
  exact (get_classes_days_state K self U).
Qed.

Lemma get_classes_appends_in_document_order_witness :
  keys_parse (JsonConfig.days (JsonConfig._data config_crossfit_at_15))
  /\ find unknown_class
       (tokens_of_days (JsonConfig.days (JsonConfig._data config_crossfit_at_15)))
     = None
  /\ exists D H,
       parsed_days ["22/11/2020"] D /\ parsed_hours ["15:00"] H
       /\ JsonConfig._get_classes config_crossfit_at_15
          = (Ok tt,
             JsonConfig.mk (JsonConfig._data config_crossfit_at_15)
               ([] ++ map page_name ["Crossfit"]) ([] ++ H) ([] ++ D)).
Proof.
  assert (K : keys_parse
                (JsonConfig.days (JsonConfig._data config_crossfit_at_15))).
  { repeat constructor; eexists; reflexivity. }
  split; [exact K|split; [reflexivity|]].
  exact (@get_classes_appends_in_document_order config_crossfit_at_15 K eq_refl).
Defined.

(** [_get_classes] on the object [__init__] gives. *)
Lemma get_classes_on_a_fresh_configuration (d : JsonConfig.data) :
  keys_parse (JsonConfig.days d) ->
  find unknown_class (tokens_of_days (JsonConfig.days d)) = None ->
  exists D H,
    parsed_days (day_keys (JsonConfig.days d)) D
    /\ parsed_hours (hour_keys (JsonConfig.days d)) H
    /\ JsonConfig._get_classes (JsonConfig.__init__ d)
       = (Ok tt,
          JsonConfig.mk d (map page_name (tokens_of_days (JsonConfig.days d))) H D).
Proof.
  intros K U. unfold JsonConfig._get_classes.
  exact (get_classes_days_state K (JsonConfig.__init__ d) U).
Qed.

(** X18. On a configuration that has just been read, with well-formed keys
    and known class tokens, [wanted_hours] raises NoHoursError when the
    document has no hour key at all, and otherwise returns the Hours of the
    hour keys in document order. *)
Theorem wanted_hours_of_a_fresh_configuration (d : JsonConfig.data) :
  keys_parse (JsonConfig.days d) ->
  find unknown_class (tokens_of_days (JsonConfig.days d)) = None ->
  match hour_keys (JsonConfig.days d) with
  | [] => fst (JsonConfig.wanted_hours (JsonConfig.__init__ d)) = Raise NoHoursError_
  | _ :: _ =>
      exists H,
        parsed_hours (hour_keys (JsonConfig.days d)) H
        /\ fst (JsonConfig.wanted_hours (JsonConfig.__init__ d)) = Ok H
  end.
Proof.
  intros K U.
  destruct (@get_classes_on_a_fresh_configuration d K U) as (D & H & PD & PH & E).
  unfold JsonConfig.wanted_hours. cbn [JsonConfig.__init__ JsonConfig._hours length].
  cbn [Z.of_nat Z.eqb]. unfold bind. rewrite E.
  cbn [JsonConfig._hours app].
  destruct (hour_keys (JsonConfig.days d)) as [|k ks] eqn:HK.
  - inversion PH. subst. reflexivity.
  - inversion PH as [|k' h ks' H' Hk Hks]. subst.
    exists (h :: H'). split; [exact PH|reflexivity].
Qed.

Lemma wanted_hours_of_a_fresh_configuration_witness :
  keys_parse (JsonConfig.days (JsonConfig._data config_without_hour))
  /\ find unknown_class
       (tokens_of_days (JsonConfig.days (JsonConfig._data config_without_hour)))
     = None
  /\ fst (JsonConfig.wanted_hours config_without_hour) = Raise NoHoursError_.
Proof.
  assert (K : keys_parse (JsonConfig.days (JsonConfig._data config_without_hour))).
  { repeat constructor; eexists; reflexivity. }
  split; [exact K|split; [reflexivity|]].
  exact (@wanted_hours_of_a_fresh_configuration
           (JsonConfig._data config_without_hour) K eq_refl).
Defined.

Lemma parsed_days_functional (keys : list string) (D D' : list dt.date) :
  parsed_days keys D -> parsed_days keys D' -> D = D'.
Proof.
  intro P. revert D'. induction P as [|k d ks D Hk _ IH]; intros D' P'.
  - now inversion P'.
  - inversion P' as [|k' d' ks' D'' Hk' P'']. subst.
    rewrite Hk in Hk'. injection Hk' as <-. f_equal. now apply IH.
Qed.

(** X19. A getter reads the document again as long as the list it returns is
    empty. After [wanted_days], a call of [wanted_classes] on a document with
    at least one class token changes nothing; on a document without any class
    token it runs [_get_classes] a second time, and every day is then stored
    twice. *)
Theorem getters_read_the_document_again_while_their_list_is_empty
  (d : JsonConfig.data) :
  keys_parse (JsonConfig.days d) ->
  find unknown_class (tokens_of_days (JsonConfig.days d)) = None ->
  let s1 := snd (JsonConfig.wanted_days (JsonConfig.__init__ d)) in
  let s2 := snd (JsonConfig.wanted_classes s1) in
  exists D,
    parsed_days (day_keys (JsonConfig.days d)) D
    /\ fst (JsonConfig.wanted_days (JsonConfig.__init__ d)) = Ok D
    /\ (tokens_of_days (JsonConfig.days d) <> [] -> s2 = s1)
    /\ (tokens_of_days (JsonConfig.days d) = [] ->
        fst (JsonConfig.wanted_days s2) = Ok (D ++ D)).
Proof.
  intros K U s1 s2.
  destruct (@get_classes_on_a_fresh_configuration d K U) as (D & H & PD & PH & E).
  assert (E1 : JsonConfig.wanted_days (JsonConfig.__init__ d)
               = (Ok D,
                  JsonConfig.mk d
                    (map page_name (tokens_of_days (JsonConfig.days d))) H D)).
  { unfold JsonConfig.wanted_days. cbn [JsonConfig.__init__ JsonConfig._days length].
    cbn [Z.of_nat Z.eqb]. unfold bind. now rewrite E. }
  exists D. split; [exact PD|split; [now rewrite E1|split]].
  - intro NE. unfold s2, s1. rewrite E1. cbn [snd].
    unfold JsonConfig.wanted_classes. cbn [JsonConfig._classes].
    destruct (tokens_of_days (JsonConfig.days d)) as [|tok toks]; [congruence|].
    reflexivity.
  - intro EQ. unfold s2, s1. rewrite E1. cbn [snd].
    rewrite EQ. cbn [map].
    unfold JsonConfig.wanted_classes. cbn [JsonConfig._classes length Z.of_nat Z.eqb].
    unfold bind at 1. unfold JsonConfig._get_classes at 1. cbn [JsonConfig._data].
    edestruct (get_classes_days_state K (JsonConfig.mk d [] H D))
      as (D' & H' & PD' & PH' & E'); [exact U|].
    rewrite E'. rewrite EQ.
    cbn [snd map app JsonConfig._days JsonConfig._data JsonConfig._classes
           JsonConfig._hours].
    rewrite (parsed_days_functional PD' PD).
    unfold JsonConfig.wanted_days. cbn [JsonConfig._days].
    destruct D as [|x D0].
    + cbn [app length Z.of_nat Z.eqb]. unfold bind.
      unfold JsonConfig._get_classes. cbn [JsonConfig._data].
      match goal with
      | |- context [JsonConfig._get_classes_days _ ?s] =>
          edestruct (get_classes_days_state K s)
            as (D2 & H2 & PD2 & PH2 & E2); [exact U|]
      end.
      rewrite E2. cbn.
      now rewrite (parsed_days_functional PD2 PD).
    + reflexivity.
Qed.

Lemma getters_read_the_document_again_while_their_list_is_empty_witness :
  keys_parse (JsonConfig.days (JsonConfig._data config_without_class))
  /\ find unknown_class
       (tokens_of_days (JsonConfig.days (JsonConfig._data config_without_class)))
     = None
  /\ exists D,
       parsed_days ["22/11/2020"] D
       /\ fst (JsonConfig.wanted_days config_without_class) = Ok D
       /\ (@nil string <> [] ->
           snd (JsonConfig.wanted_classes
                  (snd (JsonConfig.wanted_days config_without_class)))
           = snd (JsonConfig.wanted_days config_without_class))
       /\ (@nil string = [] ->
           fst (JsonConfig.wanted_days
                  (snd (JsonConfig.wanted_classes
                          (snd (JsonConfig.wanted_days config_without_class)))))
           = Ok (D ++ D)).
Proof.
  assert (K : keys_parse (JsonConfig.days (JsonConfig._data config_without_class))).
  { repeat constructor; eexists; reflexivity. }
  split; [exact K|split; [reflexivity|]].
  exact (@getters_read_the_document_again_while_their_list_is_empty
           (JsonConfig._data config_without_class) K eq_refl).
Defined.

(** ** More on scraping *)

(** X20. [_get_activity] never raises. For one of the four page names it
    returns an activity of that name that holds the three arguments, and
    leaves the trace as it is; for any other name it returns [None] and warns
    once, with a message that shows [None] and not the name. *)
Theorem get_activity_by_name (args : CCB.arguments) (name : string) (tr : Trace) :
  match CCB._get_activity args name tr with
  | (Ok (Some a), tr') =>
      In name page_names
      /\ Activity.name a = name
      /\ Activity.schedule a = CCB.arg_schedule args
      /\ Activity.reservation a = CCB.arg_reservation args
      /\ Activity.button a = CCB.arg_button args
      /\ tr' = tr
  | (Ok None, tr') => ~ In name page_names /\ tr' = tr ++ [unregistered_warning]
  | (Raise _, _) => False
  end.
Proof.
  unfold CCB._get_activity, page_names.
  destruct (String.eqb_spec name Activities.OPEN_BOX) as [->|N1].
  { cbn. tauto. }
  destruct (String.eqb_spec name Activities.CROSSFIT) as [->|N2].
  { cbn. tauto. }
  destruct (String.eqb_spec name Activities.CALISTHENICS) as [->|N3].
  { cbn. tauto. }
  destruct (String.eqb_spec name Activities.WEIGHTLIFTING) as [->|N4].
  { cbn. tauto. }
  cbn. split; [|reflexivity].
  intros [H|[H|[H|[H|[]]]]]; congruence.
Qed.

(** X21. The first table of the page, the first two rows of the second table
    and what the browser does on a click play no part in [get_activities]:
    it is the loop over the rows after the first two. *)
Theorem get_activities_skips_the_two_header_rows
  (t0 t0' : list (list Cell)) (r0 r1 r0' r1' : list Cell) (rows : list (list Cell))
  (rest rest' : list (list (list Cell))) (cr sr cr' sr' : Trace -> WebElement -> bool)
  (tr : Trace) :
  CCB.get_activities (mkWorld (t0 :: (r0 :: r1 :: rows) :: rest) cr sr) tr
  = CCB.rows_loop 2 rows [] tr
  /\ CCB.get_activities (mkWorld (t0 :: (r0 :: r1 :: rows) :: rest) cr sr) tr
     = CCB.get_activities (mkWorld (t0' :: (r0' :: r1' :: rows) :: rest') cr' sr') tr.
Proof. split; reflexivity. Qed.

(** X22. The edges of [get_activities]: on a page with fewer than two tables
    it raises IndexError; when the second table has at most two rows it
    returns the empty list. The trace is left as it is. *)
Theorem get_activities_edges (w : World) (tr : Trace) :
  ((length (tables w) < 2)%nat ->
   CCB.get_activities w tr = (Raise CCB.index_error, tr))
  /\ (forall table,
         nth_error (tables w) 1 = Some table ->
         (length table <= 2)%nat ->
         CCB.get_activities w tr = (Ok [], tr)).
Proof.
  unfold CCB.get_activities. split.
  - intro H. destruct (nth_error (tables w) 1) as [table|] eqn:E; [|reflexivity].
    assert (N : nth_error (tables w) 1 <> None) by congruence.
    apply nth_error_Some in N. lia.
  - intros table E H. rewrite E.
    destruct table as [|r0 [|r1 [|r2 rows]]]; try reflexivity.
    cbn [length] in H. lia.
Qed.

Lemma get_activities_edges_witness :
  (length (tables stale_world) < 2)%nat
  /\ CCB.get_activities stale_world [] = (Raise CCB.index_error, [])
  /\ nth_error (tables (quiet_world header_rows)) 1 = Some header_rows
  /\ (length header_rows <= 2)%nat
  /\ CCB.get_activities (quiet_world header_rows) [] = (Ok [], []).
Proof.
  assert (H1 : (length (tables stale_world) < 2)%nat) by (simpl; lia).
  assert (H2 : nth_error (tables (quiet_world header_rows)) 1 = Some header_rows)
    by reflexivity.
  assert (H3 : (length header_rows <= 2)%nat) by (simpl; lia).
  split; [exact H1|split; [|split; [exact H2|split; [exact H3|]]]].
  - exact (proj1 (@get_activities_edges stale_world []) H1).
  - exact (proj2 (@get_activities_edges (quiet_world header_rows) [])
             header_rows H2 H3).
Defined.

Lemma past_the_headers (i : nat) : (2 <= i)%nat -> (1 <? Z.of_nat i) = true.
Proof. intro H. apply Z.ltb_lt. lia. Qed.

Lemma get_activity_result (args : CCB.arguments) (name : string) (tr : Trace) :
  exists entry,
    CCB._get_activity args name tr
    = (Ok entry, tr ++ (if is_none entry then [unregistered_warning] else []))
    /\ match entry with
       | Some a =>
           Activity.name a = name
           /\ Activity.schedule a = CCB.arg_schedule args
           /\ Activity.reservation a = CCB.arg_reservation args
           /\ Activity.button a = CCB.arg_button args
       | None => ~ In name page_names
       end.
Proof.
  unfold CCB._get_activity, page_names.
  destruct (String.eqb_spec name Activities.OPEN_BOX) as [->|N1].
  { eexists (Some _). cbn. rewrite app_nil_r. repeat split. }
  destruct (String.eqb_spec name Activities.CROSSFIT) as [->|N2].
  { eexists (Some _). cbn. rewrite app_nil_r. repeat split. }
  destruct (String.eqb_spec name Activities.CALISTHENICS) as [->|N3].
  { eexists (Some _). cbn. rewrite app_nil_r. repeat split. }
  destruct (String.eqb_spec name Activities.WEIGHTLIFTING) as [->|N4].
  { eexists (Some _). cbn. rewrite app_nil_r. repeat split. }
  exists None. split; [reflexivity|].
  intros [H|[H|[H|[H|[]]]]]; congruence.
Qed.

(** A row of fewer than four cells cannot be turned into an activity. *)
Lemma short_row_raises (i : nat) (cells : list Cell)
  (activities : list (option Activity.t)) (tr : Trace) :
  (2 <= i)%nat -> (length cells < 4)%nat ->
  exists e,
    CCB.row_body i cells activities tr = (Raise e, tr)
    /\ (e = CCB.index_error \/ exists msg, e = ValueError msg).
Proof.
  intros Hi Hl. unfold CCB.row_body. rewrite (past_the_headers Hi).
  destruct cells as [|c0 [|c1 [|c2 [|c3 l]]]]; cbn [length] in Hl; try lia; clear Hl.
  - eexists. split; [reflexivity|now left].
  - cbn. destruct (Schedule.__init__ (text c0)) as [s|e] eqn:S; cbn.
    + eexists. split; [reflexivity|now left].
    + eexists. split; [reflexivity|right].
      eapply Schedule_init_raises_ValueError; eassumption.
  - cbn. destruct (Schedule.__init__ (text c0)) as [s|e] eqn:S; cbn.
    + eexists. split; [reflexivity|now left].
    + eexists. split; [reflexivity|right].
      eapply Schedule_init_raises_ValueError; eassumption.
  - cbn. destruct (Schedule.__init__ (text c0)) as [s|e] eqn:S; cbn.
    + destruct (Reservation.__init__ (text c2)) as [r|e] eqn:R; cbn.
      * eexists. split; [reflexivity|now left].
      * eexists. split; [reflexivity|right].
        eapply Reservation_init_raises_ValueError; eassumption.
    + eexists. split; [reflexivity|right].
      eapply Schedule_init_raises_ValueError; eassumption.
Qed.



Lemma parse_button_cell (c3 : Cell) (e : CCB.Elem) :
  CCB._parse_table_elem 3 c3 = Ok e ->
  exists b,
    e = CCB.EButton b
    /\ Button.is_enabled b = (String.length (text c3) =? 0)%nat.
Proof.
  unfold CCB._parse_table_elem.
  destruct (0 <? Z.of_nat (String.length (text c3))) eqn:L.
  - cbn. intro H. injection H as <-. eexists. split; [reflexivity|].
    cbn. symmetry. apply Nat.eqb_neq. apply Z.ltb_lt in L. lia.
  - destruct (anchor c3) as [el|]; [|discriminate].
    destruct (span_class c3) as [icon|]; [|discriminate].
    unfold Button.__init__. destruct (Button.icon_setter icon) as [ico|e0]; cbn;
      [|discriminate].
    intro H. injection H as <-. eexists. split; [reflexivity|].
    cbn. symmetry. apply Nat.eqb_eq. apply Z.ltb_ge in L. lia.
Qed.

(** What the body of the loop gives when it returns on a row of four cells. *)
Lemma four_cell_row_returns (i : nat) (c0 c1 c2 c3 : Cell)
  (activities activities' : list (option Activity.t)) (tr tr' : Trace) :
  (2 <= i)%nat ->
  CCB.row_body i [c0; c1; c2; c3] activities tr = (Ok activities', tr') ->
  exists entry,
    activities' = activities ++ [entry]
    /\ row_gives [c0; c1; c2; c3] entry
    /\ tr' = tr ++ (if is_none entry then [unregistered_warning] else []).
Proof.
  intros Hi. unfold CCB.row_body. rewrite (past_the_headers Hi).
  cbn [length Z.of_nat Pos.of_succ_nat Pos.succ Z.ltb Z.compare Pos.compare
         Pos.compare_cont].
  unfold bind at 1. unfold of_res at 1.
  cbn [CCB.parse_cells app].
  unfold CCB._parse_table_elem at 1.
  destruct (Schedule.__init__ (text c0)) as [s|e] eqn:S; cbn [res_bind];
    [|discriminate].
  unfold CCB._parse_table_elem at 1. cbn [res_bind app].
  unfold CCB._parse_table_elem at 1.
  destruct (Reservation.__init__ (text c2)) as [r|e] eqn:R; cbn [res_bind app];
    [|discriminate].
  destruct (CCB._parse_table_elem 3 c3) as [e3|e] eqn:B; cbn [res_bind app];
    [|discriminate].
  apply parse_button_cell in B as (b & -> & Hb).
  unfold bind at 1. unfold of_res at 1. cbn [CCB.name_and_arguments fst snd].
  unfold bind at 1.
  destruct (get_activity_result (CCB.mk_arguments s r b) (text c1) tr)
    as (entry & E & He).
  rewrite E. unfold ret. intro H. injection H as <- <-.
  exists entry. split; [reflexivity|split; [|reflexivity]].
  exists c0, c1, c2, c3. split; [reflexivity|].
  destruct entry as [a|]; [|exact He].
  destruct He as (Hn & Hs & Hr & Hbt). cbn in Hs, Hr, Hbt.
  rewrite Hs, Hr, Hbt. auto.
Qed.

Lemma rows_loop_returns (rows : list (list Cell)) :
  forall i activities tr activities' tr',
    (2 <= i)%nat ->
    CCB.rows_loop i rows activities tr = (Ok activities', tr') ->
    exists new,
      activities' = activities ++ new
      /\ Forall2 row_gives (filter is_activity_row rows) new
      /\ tr' = tr ++ repeat unregistered_warning (count_none new).
Proof.
  induction rows as [|cells rows IH]; intros i acts tr acts' tr' Hi H.
  - cbn in H. injection H as <- <-. exists []. cbn. rewrite !app_nil_r.
    repeat split. constructor.
  - cbn [CCB.rows_loop] in H. unfold bind in H.
    destruct (CCB.row_body i cells acts tr) as [[acts1|e] tr1] eqn:B;
      [|discriminate].
    cbn [filter]. unfold is_activity_row at 1.
    destruct (4 <? Z.of_nat (length cells)) eqn:L; cbn [negb].
    + apply Z.ltb_lt in L. rewrite (row_body_many_cells i cells acts tr L) in B.
      injection B as <- <-. eapply IH; [|exact H]. lia.
    + apply Z.ltb_ge in L.
      destruct (Nat.lt_ge_cases (length cells) 4) as [Short|Long].
      * destruct (short_row_raises cells acts tr Hi Short) as (e & E & _).
        rewrite E in B. discriminate.
      * destruct cells as [|c0 [|c1 [|c2 [|c3 [|c4 l]]]]]; cbn [length] in *; try lia.
        apply four_cell_row_returns in B as (entry & -> & G & ->); [|exact Hi].
        apply IH in H as (new & -> & F & ->); [|lia].
        exists (entry :: new). split; [now rewrite <- app_assoc|split].
        -- constructor; assumption.
        -- unfold count_none. cbn [filter].
           destruct (is_none entry); cbn [length repeat app].
           ++ now rewrite <- app_assoc.
           ++ now rewrite app_nil_r.
Qed.

(** X24. When [get_activities] returns, its list has one entry for every row
    after the two header rows that has at most four cells, in table order.
    Such a row has exactly four cells; an entry that is an activity holds the
    Schedule of the first cell, the name of the second, the Reservation of the
    third, and a button that is enabled exactly when the fourth cell has no
    text; an entry that is [None] stands for a name that is none of the
    four. *)
Theorem get_activities_one_entry_per_row
  (w : World) (table : list (list Cell)) (tr tr' : Trace)
  (activities : list (option Activity.t)) :
  nth_error (tables w) 1 = Some table ->
  CCB.get_activities w tr = (Ok activities, tr') ->
  Forall2 row_gives (filter is_activity_row (skipn 2 table)) activities.
Proof.
  intros T H. unfold CCB.get_activities in H. rewrite T in H.
  destruct table as [|r0 [|r1 rows]].
  - cbn in H. injection H as <- <-. constructor.
  - cbn in H. injection H as <- <-. constructor.
  - change (CCB.rows_loop 2 rows [] tr = (Ok activities, tr')) in H.
    apply rows_loop_returns in H as (new & -> & F & _); [|lia].
    exact F.
Qed.

(** X25. [get_activities] makes no call that the trace records but its
    warnings: when it returns, it has warned once for every [None] in its
    list, and logged nothing. *)
Theorem get_activities_warns_once_per_None
  (w : World) (tr tr' : Trace) (activities : list (option Activity.t)) :
  CCB.get_activities w tr = (Ok activities, tr') ->
  tr' = tr ++ repeat unregistered_warning (count_none activities).
Proof.
  intro H. unfold CCB.get_activities in H.
  destruct (nth_error (tables w) 1) as [table|]; [|discriminate].
  destruct table as [|r0 [|r1 rows]].
  - cbn in H. injection H as <- <-. cbn. now rewrite app_nil_r.
  - cbn in H. injection H as <- <-. cbn. now rewrite app_nil_r.
  - change (CCB.rows_loop 2 rows [] tr = (Ok activities, tr')) in H.
    apply rows_loop_returns in H as (new & -> & _ & ->); [|lia].
    reflexivity.
Qed.

Lemma get_activities_one_entry_per_row_witness :
  nth_error
    (tables (quiet_world (header_rows ++ [row_yoga; row_registered; row_crossfit]))) 1
  = Some (header_rows ++ [row_yoga; row_registered; row_crossfit])
  /\ CCB.get_activities
       (quiet_world (header_rows ++ [row_yoga; row_registered; row_crossfit])) []
     = (Ok [None; Some crossfit_free], [unregistered_warning])
  /\ Forall2 row_gives [row_yoga; row_crossfit] [None; Some crossfit_free].
Proof.
  assert (T : nth_error
                (tables (quiet_world
                           (header_rows ++ [row_yoga; row_registered; row_crossfit]))) 1
              = Some (header_rows ++ [row_yoga; row_registered; row_crossfit]))
    by reflexivity.
  assert (G : CCB.get_activities
                (quiet_world (header_rows ++ [row_yoga; row_registered; row_crossfit]))
                []
              = (Ok [None; Some crossfit_free], [unregistered_warning]))
    by reflexivity.
  split; [exact T|split; [exact G|]].
  exact (@get_activities_one_entry_per_row _ _ _ _ _ T G).
Defined.

Lemma get_activities_warns_once_per_None_witness :
  CCB.get_activities
    (quiet_world (header_rows ++ [row_yoga; row_registered; row_crossfit])) []
  = (Ok [None; Some crossfit_free], [unregistered_warning])
  /\ [unregistered_warning]
     = [] ++ repeat unregistered_warning (count_none [None; Some crossfit_free]).
Proof.
  assert (G : CCB.get_activities
                (quiet_world (header_rows ++ [row_yoga; row_registered; row_crossfit]))
                []
              = (Ok [None; Some crossfit_free], [unregistered_warning]))
    by reflexivity.
  split; [exact G|].
  exact (@get_activities_warns_once_per_None _ _ _ _ G).
Defined.

(** ** The booking pass as a whole *)

(** The configuration object is created at line 415 and first queried at
    line 430, by [wanted_days()]; lines 431 to 433 drive the browser and do
    not touch it. The booking pass of lines 434 to 444 therefore starts from
    the object [wanted_days] leaves, with whatever trace the browser calls
    left. *)

Lemma wanted_days_on_a_fresh_configuration (d : JsonConfig.data) :
  keys_parse (JsonConfig.days d) ->
  find unknown_class (tokens_of_days (JsonConfig.days d)) = None ->
  exists D H,
    parsed_days (day_keys (JsonConfig.days d)) D
    /\ parsed_hours (hour_keys (JsonConfig.days d)) H
    /\ JsonConfig.wanted_days (JsonConfig.__init__ d)
       = (Ok D,
          JsonConfig.mk d (map page_name (tokens_of_days (JsonConfig.days d))) H D).
Proof.
  intros K U.
  destruct (@get_classes_on_a_fresh_configuration d K U) as (D & H & PD & PH & E).
  exists D, H. split; [exact PD|split; [exact PH|]].
  unfold JsonConfig.wanted_days. cbn [JsonConfig.__init__ JsonConfig._days length].
  cbn [Z.of_nat Z.eqb]. unfold bind. now rewrite E.
Qed.

Lemma hour_key_day_key (ds : list (string * list (string * list string))) :
  hour_keys ds <> [] -> day_keys ds <> [].
Proof. destruct ds; [intro H; now contradiction H|discriminate]. Qed.

(** X26. With a well-formed configuration with known class tokens and at
    least one hour key, line 430 returns a non-empty list of days, and the
    booking pass that starts from the object it leaves is the booking loop
    over the scraped activities, for the page names of all the class tokens
    of the document, whatever day and hour they stand under, and for the hour
    15:00: the hour keys of the document do not reach the guard. *)
Theorem main_booking_pools_the_classes_and_books_at_15
  (w : World) (d : JsonConfig.data) (tr tr1 : Trace)
  (activities : list (option Activity.t)) :
  CCB.get_activities w tr = (Ok activities, tr1) ->
  keys_parse (JsonConfig.days d) ->
  find unknown_class (tokens_of_days (JsonConfig.days d)) = None ->
  hour_keys (JsonConfig.days d) <> [] ->
  let wanted_activities := map page_name (tokens_of_days (JsonConfig.days d)) in
  exists D c0 c,
    JsonConfig.wanted_days (JsonConfig.__init__ d) = (Ok D, c0)
    /\ D <> []
    /\ JsonConfig._classes c = wanted_activities
    /\ main_booking w (c0, tr)
       = (fst (booking_loop w wanted_activities hour_15_00 activities tr1),
          (c, snd (booking_loop w wanted_activities hour_15_00 activities tr1))).
Proof.
  intros G K U NE wa.
  destruct (@wanted_days_on_a_fresh_configuration d K U) as (D & H & PD & PH & E).
  assert (ND : D <> []).
  { intros ->. apply hour_key_day_key in NE.
    unfold parsed_days in PD. apply Forall2_length in PD.
    destruct (day_keys (JsonConfig.days d)); [congruence|discriminate]. }
  assert (HH : exists h H', H = h :: H').
  { destruct H as [|h H']; [|eauto].
    inversion PH as [HK|]. symmetry in HK. contradiction. }
  destruct HH as (h & H' & ->).
  fold wa in E.
  destruct (tokens_of_days (JsonConfig.days d)) as [|tok toks] eqn:T.
  - (* no class token: [wanted_classes] reads the document again *)
    destruct (get_classes_days_state K (JsonConfig.mk d wa (h :: H') D))
      as (D2 & H2 & PD2 & PH2 & E2); [now rewrite T|].
    rewrite T in E2.
    cbn [map app JsonConfig._data JsonConfig._classes JsonConfig._hours
           JsonConfig._days] in E2.
    exists D, (JsonConfig.mk d wa (h :: H') D),
      (JsonConfig.mk d (wa ++ []) (h :: H' ++ H2) (D ++ D2)).
    split; [exact E|split; [exact ND|split; [apply app_nil_r|]]].
    unfold main_booking.
    unfold bind at 1. unfold lift_trace at 1. cbn [fst snd]. rewrite G.
    unfold bind at 1. unfold lift_config at 1. cbn [fst snd].
    unfold JsonConfig.wanted_classes at 1. unfold wa at 1.
    cbn [map JsonConfig._classes length Z.of_nat Z.eqb].
    unfold bind at 1. unfold JsonConfig._get_classes at 1.
    cbn [JsonConfig._data]. rewrite E2.
    change (Hour.__init__ wanted_hour_literal) with (Ok hour_15_00).
    unfold JsonConfig.wanted_hours, bind, ret, of_res, lift_trace, lift_config.
    unfold wa. cbn -[booking_loop hour_15_00].
    now destruct (booking_loop w [] hour_15_00 activities tr1) as [r tr2].
  - exists D, (JsonConfig.mk d wa (h :: H') D), (JsonConfig.mk d wa (h :: H') D).
    split; [exact E|split; [exact ND|split; [reflexivity|]]].
    unfold main_booking.
    unfold bind at 1. unfold lift_trace at 1. cbn [fst snd]. rewrite G.
    change (Hour.__init__ wanted_hour_literal) with (Ok hour_15_00).
    unfold JsonConfig.wanted_classes, JsonConfig.wanted_hours, bind, ret, of_res,
      lift_trace, lift_config.
    unfold wa. cbn -[booking_loop hour_15_00 page_name].
    now destruct (booking_loop w (page_name tok :: map page_name toks) hour_15_00
                    activities tr1) as [r tr2].
Qed.

Lemma main_booking_pools_the_classes_and_books_at_15_witness :
  CCB.get_activities (quiet_world (header_rows ++ [row_crossfit])) []
  = (Ok [Some crossfit_free], [])
  /\ keys_parse (JsonConfig.days (JsonConfig._data config_crossfit_at_15))
  /\ hour_keys (JsonConfig.days (JsonConfig._data config_crossfit_at_15)) <> []
  /\ exists D c0 c,
       JsonConfig.wanted_days config_crossfit_at_15 = (Ok D, c0)
       /\ D <> []
       /\ JsonConfig._classes c = ["Crossfit"]
       /\ main_booking (quiet_world (header_rows ++ [row_crossfit])) (c0, [])
          = (fst (booking_loop (quiet_world (header_rows ++ [row_crossfit]))
                    ["Crossfit"] hour_15_00 [Some crossfit_free] []),
             (c, snd (booking_loop (quiet_world (header_rows ++ [row_crossfit]))
                        ["Crossfit"] hour_15_00 [Some crossfit_free] []))).
Proof.
  assert (G : CCB.get_activities (quiet_world (header_rows ++ [row_crossfit])) []
              = (Ok [Some crossfit_free], [])) by reflexivity.
  assert (K : keys_parse (JsonConfig.days (JsonConfig._data config_crossfit_at_15))).
  { repeat constructor; eexists; reflexivity. }
  assert (NE : hour_keys (JsonConfig.days (JsonConfig._data config_crossfit_at_15))
               <> []) by discriminate.
  split; [exact G|split; [exact K|split; [exact NE|]]].
  exact (@main_booking_pools_the_classes_and_books_at_15
           (quiet_world (header_rows ++ [row_crossfit]))
           (JsonConfig._data config_crossfit_at_15) [] [] [Some crossfit_free]
           G K eq_refl NE).
Defined.

Lemma no_hour_key_no_token (ds : list (string * list (string * list string))) :
  hour_keys ds = [] -> tokens_of_days ds = [].
Proof.
  induction ds as [|[day hours] ds IH]; [reflexivity|].
  unfold hour_keys, tokens_of_days. cbn [flat_map snd].
  intro H. apply app_eq_nil in H as [H1 H2].
  destruct hours as [|hc hours]; [|discriminate].
  cbn. now apply IH.
Qed.

(** X27. Where the errors of the configuration leave the program. With
    well-formed keys, an unknown class token raises ClassError at line 430,
    in [wanted_days()], before the day is displayed and the table scraped. A
    document with a day but without any hour key passes line 430, and the
    booking pass then raises NoHoursError after the table has been scraped
    and before any booking: the trace holds what [get_activities] left and
    nothing more. *)
Theorem configuration_errors_before_and_after_scraping (d : JsonConfig.data) :
  keys_parse (JsonConfig.days d) ->
  (forall tok,
      find unknown_class (tokens_of_days (JsonConfig.days d)) = Some tok ->
      fst (JsonConfig.wanted_days (JsonConfig.__init__ d)) = Raise (ClassError_ tok))
  /\ (day_keys (JsonConfig.days d) <> [] ->
      hour_keys (JsonConfig.days d) = [] ->
      exists D c0,
        JsonConfig.wanted_days (JsonConfig.__init__ d) = (Ok D, c0)
        /\ D <> []
        /\ forall w tr tr1 activities,
             CCB.get_activities w tr = (Ok activities, tr1) ->
             exists c, main_booking w (c0, tr) = (Raise NoHoursError_, (c, tr1))).
Proof.
  intro K. split.
  - intros tok F.
    pose proof (get_classes_days_outcome K (JsonConfig.__init__ d)) as O.
    unfold classes_outcome in O. rewrite F in O.
    destruct (JsonConfig._get_classes_days (JsonConfig.days d) (JsonConfig.__init__ d))
      as [r c] eqn:E.
    cbn [fst] in O. subst r.
    assert (E' : JsonConfig._get_classes (JsonConfig.__init__ d)
                 = (Raise (ClassError_ tok), c)) by exact E.
    unfold JsonConfig.wanted_days.
    cbn [JsonConfig.__init__ JsonConfig._days length].
    cbn [Z.of_nat Z.eqb]. unfold bind. now rewrite E'.
  - intros ND NH.
    pose proof (no_hour_key_no_token _ NH) as NT.
    assert (U : find unknown_class (tokens_of_days (JsonConfig.days d)) = None)
      by (now rewrite NT).
    destruct (@wanted_days_on_a_fresh_configuration d K U) as (D & H & PD & PH & E).
    rewrite NH in PH. inversion PH. subst H. rewrite NT in E. cbn [map] in E.
    exists D, (JsonConfig.mk d [] [] D). split; [exact E|split].
    + intros ->. unfold parsed_days in PD. apply Forall2_length in PD.
      destruct (day_keys (JsonConfig.days d)); [congruence|discriminate].
    + intros w tr tr1 activities G.
      destruct (get_classes_days_state K (JsonConfig.mk d [] [] D) U)
        as (D2 & H2 & PD2 & PH2 & E2).
      rewrite NH in PH2. inversion PH2. subst H2. rewrite NT in E2.
      cbn [map app JsonConfig._data JsonConfig._classes JsonConfig._hours
             JsonConfig._days] in E2.
      destruct (get_classes_days_state K (JsonConfig.mk d [] [] (D ++ D2)) U)
        as (D3 & H3 & PD3 & PH3 & E3).
      rewrite NH in PH3. inversion PH3. subst H3. rewrite NT in E3.
      cbn [map app JsonConfig._data JsonConfig._classes JsonConfig._hours
             JsonConfig._days] in E3.
      exists (JsonConfig.mk d [] [] ((D ++ D2) ++ D3)).
      unfold main_booking.
      unfold bind at 1. unfold lift_trace at 1. cbn [fst snd]. rewrite G.
      unfold bind at 1. unfold lift_config at 1. cbn [fst snd].
      unfold JsonConfig.wanted_classes.
      cbn [JsonConfig._classes length Z.of_nat Z.eqb].
      unfold bind at 1. unfold JsonConfig._get_classes at 1.
      cbn [JsonConfig._data]. rewrite E2.
      unfold bind at 1. unfold lift_config at 1. cbn [fst snd].
      unfold JsonConfig.wanted_hours.
      cbn [JsonConfig._hours length Z.of_nat Z.eqb].
      unfold bind at 1. unfold JsonConfig._get_classes at 1.
      cbn [JsonConfig._data]. rewrite E3. reflexivity.
Qed.

Lemma configuration_errors_before_and_after_scraping_witness :
  keys_parse (JsonConfig.days (JsonConfig._data (config_with_class "Yoga")))
  /\ fst (JsonConfig.wanted_days (config_with_class "Yoga"))
     = Raise (ClassError_ "Yoga")
  /\ keys_parse (JsonConfig.days (JsonConfig._data config_without_hour))
  /\ day_keys (JsonConfig.days (JsonConfig._data config_without_hour)) <> []
  /\ hour_keys (JsonConfig.days (JsonConfig._data config_without_hour)) = []
  /\ exists D c0,
       JsonConfig.wanted_days config_without_hour = (Ok D, c0)
       /\ D <> []
       /\ forall w tr tr1 activities,
            CCB.get_activities w tr = (Ok activities, tr1) ->
            exists c, main_booking w (c0, tr) = (Raise NoHoursError_, (c, tr1)).
Proof.
  assert (K1 : keys_parse
                 (JsonConfig.days (JsonConfig._data (config_with_class "Yoga")))).
  { repeat constructor; eexists; reflexivity. }
  assert (K : keys_parse (JsonConfig.days (JsonConfig._data config_without_hour))).
  { repeat constructor; eexists; reflexivity. }
  assert (ND : day_keys (JsonConfig.days (JsonConfig._data config_without_hour)) <> [])
    by discriminate.
  split; [exact K1|split; [|split; [exact K|split; [exact ND|split; [reflexivity|]]]]].
  - exact (proj1 (@configuration_errors_before_and_after_scraping
                    (JsonConfig._data (config_with_class "Yoga")) K1)
             "Yoga" eq_refl).
  - exact (proj2 (@configuration_errors_before_and_after_scraping
                    (JsonConfig._data config_without_hour) K) ND eq_refl).
Defined.
